(** * WhatsApp Chat Analyzer: the dashboard page and the log parser it calls

    The development embeds [src/1_Main_App.py] (the Streamlit page
    [whatsapp_chat_analyzer]) and, for the parts of the repository that
    the page only imports, a parser modelled from the specification.

    Python [str] values are sequences of Unicode code points, [bytes]
    values are lists of [Byte.byte], dictionaries and data-frame rows are
    finite maps keyed by the literal names that occur in the program. *)

From Stdlib Require Import ZArith NArith List String Ascii Strings.Byte Bool Lia.
From stdpp Require Import base option list gmap strings sorting.

Local Open Scope N_scope.

(** ** Text *)

(** A Python [str]: its code points, in order. *)
Abbreviation text := (list N).

(** A program literal, read as a Python [str] (the literals of the page
    that matter here are ASCII). *)
Definition py (s : string) : text :=
  map N_of_ascii (list_ascii_of_string s).

(** The line feed. *)
Definition LF : N := 10.

(** [s.startswith(p)]. *)
Fixpoint startswith (p s : text) : bool :=
  match p, s with
  | [], _ => true
  | _ :: _, [] => false
  | a :: p', b :: s' => (a =? b) && startswith p' s'
  end.

(** [p in s]; also [re.search] of a pattern without metacharacters. *)
Fixpoint contains (p s : text) : bool :=
  startswith p s ||
  match s with
  | [] => false
  | _ :: s' => contains p s'
  end.

(** The rest of [s] behind the prefix [p], when [s] starts with [p]. *)
Fixpoint strip_prefix (p s : text) : option text :=
  match p, s with
  | [], _ => Some s
  | _ :: _, [] => None
  | a :: p', b :: s' => if a =? b then strip_prefix p' s' else None
  end.

(** One attempt of the pattern [http[s]?://] at the head of [s]: the
    literal [http], then the optional [s] (tried first, as the greedy
    quantifier does, then skipped), then [://]. *)
Definition match_link_here (s : text) : bool :=
  match strip_prefix (py "http") s with
  | Some r => startswith (py "s://") r || startswith (py "://") r
  | None => false
  end.

(** [re.search(r'http[s]?://', s)]: the first position where an attempt
    succeeds. *)
Fixpoint search_link (s : text) : bool :=
  match_link_here s ||
  match s with
  | [] => false
  | _ :: s' => search_link s'
  end.

(** [c.isspace()] for one code point: the characters CPython treats as
    white space. *)
Definition isspace (c : N) : bool :=
  ((9 <=? c) && (c <=? 13)) || ((28 <=? c) && (c <=? 32)) ||
  (c =? 133) || (c =? 160) || (c =? 5760) ||
  ((8192 <=? c) && (c <=? 8202)) || (c =? 8232) || (c =? 8233) ||
  (c =? 8239) || (c =? 8287) || (c =? 12288).

(** [s.split()] with no separator: the maximal runs of characters that
    are not white space. [cur] holds the run being read, reversed. *)
Fixpoint split_ws (cur s : text) : list text :=
  match s with
  | [] => match cur with [] => [] | _ => [rev cur] end
  | c :: s' =>
      if isspace c
      then match cur with
           | [] => split_ws [] s'
           | _ => rev cur :: split_ws [] s'
           end
      else split_ws (c :: cur) s'
  end.

Definition split (s : text) : list text := split_ws [] s.

(** ** Decoding the upload: [bytes.decode("utf-8")] *)

Definition is_cont (b : N) : bool := (128 <=? b) && (b <=? 191).

Definition low6 (b : N) : N := N.land b 63.

(** Strict UTF-8: shortest form only, no surrogates, nothing above
    U+10FFFF; [None] stands for [UnicodeDecodeError]. *)
Fixpoint utf8_decode (bs : list byte) : option text :=
  match bs with
  | [] => Some []
  | x0 :: r0 =>
      let b0 := Byte.to_N x0 in
      if b0 <? 128 then cons b0 <$> utf8_decode r0
      else if (194 <=? b0) && (b0 <=? 223) then
        match r0 with
        | x1 :: r1 =>
            let b1 := Byte.to_N x1 in
            if is_cont b1
            then cons (N.shiftl (N.land b0 31) 6 + low6 b1) <$> utf8_decode r1
            else None
        | _ => None
        end
      else if (224 <=? b0) && (b0 <=? 239) then
        match r0 with
        | x1 :: x2 :: r2 =>
            let b1 := Byte.to_N x1 in
            let b2 := Byte.to_N x2 in
            let lo := if b0 =? 224 then 160 else 128 in
            let hi := if b0 =? 237 then 159 else 191 in
            if (lo <=? b1) && (b1 <=? hi) && is_cont b2
            then cons (N.shiftl (N.land b0 15) 12 + N.shiftl (low6 b1) 6
                       + low6 b2) <$> utf8_decode r2
            else None
        | _ => None
        end
      else if (240 <=? b0) && (b0 <=? 244) then
        match r0 with
        | x1 :: x2 :: x3 :: r3 =>
            let b1 := Byte.to_N x1 in
            let b2 := Byte.to_N x2 in
            let b3 := Byte.to_N x3 in
            let lo := if b0 =? 240 then 144 else 128 in
            let hi := if b0 =? 244 then 143 else 191 in
            if (lo <=? b1) && (b1 <=? hi) && is_cont b2 && is_cont b3
            then cons (N.shiftl (N.land b0 7) 18 + N.shiftl (low6 b1) 12
                       + N.shiftl (low6 b2) 6 + low6 b3) <$> utf8_decode r3
            else None
        | _ => None
        end
      else None
  end.

(** The bytes of an ASCII literal, for examples. *)
Definition bytes_of (s : string) : list byte := list_byte_of_string s.

(** ** Values shared by the parser and the page *)

(** A point in time: calendar date and time of day, no time zone. *)
Record datetime := mkDatetime {
  year : N; month : N; day : N; hour : N; minute : N; second : N
}.

(** The exceptions the page can meet. *)
Inductive exn :=
| UnicodeDecodeError
| KeyError (k : string)
| TypeError
| ValueError
| AttributeError
| LibraryError (msg : string).

Inductive result (A : Type) :=
| Ok (a : A)
| Err (e : exn).
Arguments Ok {A} a.
Arguments Err {A} e.

(** One cell of a data frame. *)
Inductive cell :=
| CStr (s : text)
| CTime (t : datetime)
| CInt (z : Z)
| CNaT
| CNaN.

(** A pandas [DataFrame], row by row: the column index (in insertion
    order) and, for every row, the cells by column name. *)
Record DataFrame := mkFrame {
  columns : list string;
  rows : list (gmap string cell)
}.

Definition at_col (c : string) (r : gmap string cell) : cell :=
  default CNaN (r !! c).

(** [df[c]]: the column as a sequence, [KeyError] when there is none. *)
Definition getitem (c : string) (df : DataFrame) : result (list cell) :=
  if decide (c ∈ columns df)
  then Ok (at_col c <$> rows df)
  else Err (KeyError c).

(** [df[c] = vals]: replaces or appends the column in place; pandas
    refuses a sequence whose length is not the number of rows. *)
Definition setitem (c : string) (vals : list cell) (df : DataFrame)
  : result DataFrame :=
  if decide (length vals = length (rows df))
  then Ok {| columns := if decide (c ∈ columns df) then columns df
                        else columns df ++ [c];
             rows := zip_with (fun r v => <[c := v]> r) (rows df) vals |}
  else Err ValueError.

(** [pd.isna] on one cell. *)
Definition isna (v : cell) : bool :=
  match v with
  | CNaT | CNaN => true
  | _ => false
  end.

(** [df.dropna(subset=[c])]: a new frame without the rows whose cell in
    column [c] is missing. *)
Definition dropna (c : string) (df : DataFrame) : result DataFrame :=
  if decide (c ∈ columns df)
  then Ok {| columns := columns df;
             rows := List.filter (fun r => negb (isna (at_col c r))) (rows df) |}
  else Err (KeyError c).

(** [df.head(n)]. *)
Definition head (n : nat) (df : DataFrame) : DataFrame :=
  {| columns := columns df; rows := take n (rows df) |}.

(** [df.shape[0]]. *)
Definition nrows (df : DataFrame) : nat := length (rows df).

(** ** The log parser ([chat_parser], imported by the page)

    The page imports [preprocess_chat] from the module [chat_parser],
    whose text is not among the sources. Everything in [ChatParser] is
    therefore written from the specification: the Line Classifier, the
    Header Decoder and the Record Assembler of its sections 3 to 7. *)

Module ChatParser.

(** Modelled from the spec: the format-configuration value of section 6
    (module [chat_parser] is not among the sources): the order of the
    date fields and the header grammars that are enabled. *)
Inductive DateOrder := DayFirst | MonthFirst.

(** Modelled from the spec: the two header grammars section 4.2 asks
    for at least (the parser itself is missing from the sources). *)
Inductive Grammar :=
| DashGrammar      (* M/D/YY, H:MM - Sender: message *)
| BracketGrammar.  (* [D/MM/YY, H:MM:SS] Sender: message *)

Record Config := mkConfig {
  date_order : DateOrder;
  enabled : list Grammar
}.

(** Modelled from the spec: the kinds of section 3 (the page has no
    such column). *)
Inductive Kind := Text | Media | SystemNotice | LinkBearing.

(** Modelled from the spec: the ChatRecord of section 3. *)
Record ChatRecord := mkRecord {
  timestamp : datetime;
  sender : text;
  body : text;
  kind : Kind
}.

(** Modelled from the spec: the HeaderMatch of section 3. A sender-less
    system line has no sender. *)
Record HeaderMatch := mkHeader {
  h_timestamp : datetime;
  h_sender : option text;
  h_rest : text
}.

(** Modelled from the spec: the reserved sender of application notices
    (section 3 suggests "system"). *)
Definition system_sender : text := py "system".

(** The media-omitted placeholder of the exporting application, as line
    45 of the page spells it. *)
Definition media_placeholder : text := py "<Media omitted>".

(** *** Reading numbers *)

Definition digit_val (c : N) : option N :=
  if (48 <=? c) && (c <=? 57) then Some (c - 48) else None.

(** The leading decimal digits of [s] and what follows them. *)
Fixpoint span_digits (s : text) : list N * text :=
  match s with
  | [] => ([], [])
  | c :: s' =>
      match digit_val c with
      | Some d => let '(ds, r) := span_digits s' in (d :: ds, r)
      | None => ([], s)
      end
  end.

Definition number_of (ds : list N) : N :=
  fold_left (fun acc d => 10 * acc + d) ds 0.

(** A number written with at least [lo] and at most [hi] digits: its
    value, its width and the rest of the line. *)
Definition read_field (lo hi : nat) (s : text) : option (N * nat * text) :=
  let '(ds, r) := span_digits s in
  let n := length ds in
  if (lo <=? n)%nat && (n <=? hi)%nat then Some (number_of ds, n, r) else None.

(** The literal [p], which must come next. *)
Definition expect (p : string) (s : text) : option text :=
  strip_prefix (py p) s.

(** *** Calendar *)

Definition is_leap (y : N) : bool :=
  ((y mod 4 =? 0) && negb (y mod 100 =? 0)) || (y mod 400 =? 0).

Definition days_in_month (y m : N) : N :=
  if (m =? 2) then (if is_leap y then 29 else 28)
  else if (m =? 4) || (m =? 6) || (m =? 9) || (m =? 11) then 30
  else 31.

Definition valid_date (y m d : N) : bool :=
  (1 <=? m) && (m <=? 12) && (1 <=? d) && (d <=? days_in_month y m).

(** Modelled from the spec: the date of a header, [a/b/y], read with the
    configured field order; a two-digit year counts from 2000 (the
    scenario of section 8 reads 23 as 2023). *)
Definition decode_date (o : DateOrder) (s : text) : option (N * N * N * text) :=
  '(a, _, s) ← read_field 1 2 s;
  s ← expect "/" s;
  '(b, _, s) ← read_field 1 2 s;
  s ← expect "/" s;
  '(y, w, s) ← read_field 2 4 s;
  guard (w ≠ 3%nat);;
  let y := if (w =? 2)%nat then 2000 + y else y in
  let '(d, m) := match o with
                 | DayFirst => (a, b)
                 | MonthFirst => (b, a)
                 end in
  if valid_date y m d then Some (y, m, d, s) else None.

(** The marker of a 12-hour time, after one space: [Some true] for PM. *)
Definition read_meridiem (s : text) : option (bool * text) :=
  match expect " AM" s, expect " am" s, expect " PM" s, expect " pm" s with
  | Some r, _, _, _ => Some (false, r)
  | _, Some r, _, _ => Some (false, r)
  | _, _, Some r, _ => Some (true, r)
  | _, _, _, Some r => Some (true, r)
  | _, _, _, _ => None
  end.

(** Modelled from the spec: the time of a header, [H:MM] or [H:MM:SS]
    as the grammar asks, on the 24-hour clock or on the 12-hour clock
    when a marker follows. *)
Definition decode_time (with_seconds : bool) (s : text)
  : option (N * N * N * text) :=
  '(h, _, s) ← read_field 1 2 s;
  s ← expect ":" s;
  '(mi, _, s) ← read_field 2 2 s;
  '(se, s) ← (if with_seconds
              then (s ← expect ":" s;
                    '(se, _, s) ← read_field 2 2 s;
                    Some (se, s))
              else Some (0, s));
  guard (mi < 60);;
  guard (se < 60);;
  match read_meridiem s with
  | Some (pm, s) =>
      guard (1 ≤ h);;
      guard (h ≤ 12);;
      Some ((if pm then 12 else 0) + h mod 12, mi, se, s)
  | None =>
      guard (h < 24);;
      Some (h, mi, se, s)
  end.

(** Splits [s] at the first occurrence of [": "]. *)
Fixpoint split_sender (acc s : text) : option (text * text) :=
  match s with
  | [] => None
  | c :: s' =>
      match strip_prefix (py ": ") s with
      | Some r => Some (rev acc, r)
      | None => split_sender (c :: acc) s'
      end
  end.

(** The sender and the residual text behind a timestamp prefix. *)
Definition decode_tail (ts : datetime) (s : text) : HeaderMatch :=
  match split_sender [] s with
  | Some (who, r) => mkHeader ts (Some who) r
  | None => mkHeader ts None s
  end.

(** Modelled from the spec: one header grammar of section 4.2. *)
Definition decode_with (o : DateOrder) (g : Grammar) (line : text)
  : option HeaderMatch :=
  match g with
  | DashGrammar =>
      '(y, m, d, s) ← decode_date o line;
      s ← expect ", " s;
      '(h, mi, se, s) ← decode_time false s;
      s ← expect " - " s;
      Some (decode_tail (mkDatetime y m d h mi se) s)
  | BracketGrammar =>
      s ← expect "[" line;
      '(y, m, d, s) ← decode_date o s;
      s ← expect ", " s;
      '(h, mi, se, s) ← decode_time true s;
      s ← expect "] " s;
      Some (decode_tail (mkDatetime y m d h mi se) s)
  end.

Definition grammar_eqb (g1 g2 : Grammar) : bool :=
  match g1, g2 with
  | DashGrammar, DashGrammar | BracketGrammar, BracketGrammar => true
  | _, _ => false
  end.

(** The fixed priority order of the grammars. *)
Definition priority : list Grammar := [DashGrammar; BracketGrammar].

Fixpoint first_match (o : DateOrder) (gs : list Grammar) (line : text)
  : option HeaderMatch :=
  match gs with
  | [] => None
  | g :: gs' =>
      match decode_with o g line with
      | Some h => Some h
      | None => first_match o gs' line
      end
  end.

(** Modelled from the spec: the Header Decoder of section 4.2, which
    tries the enabled grammars in priority order. *)
Definition decode_header (cfg : Config) (line : text) : option HeaderMatch :=
  first_match (date_order cfg)
    (List.filter (fun g => existsb (grammar_eqb g) (enabled cfg)) priority)
    line.

(** Modelled from the spec: the Line Classifier of section 4.1. *)
Definition is_header (cfg : Config) (line : text) : bool :=
  match decode_header cfg line with
  | Some _ => true
  | None => false
  end.

(** *** Content classification *)

Fixpoint lstrip (s : text) : text :=
  match s with
  | c :: s' => if isspace c then lstrip s' else s
  | [] => []
  end.

(** [s.strip()]. *)
Definition strip (s : text) : text := rev (lstrip (rev (lstrip s))).

Definition text_eqb (a b : text) : bool := bool_decide (a = b).

(** Modelled from the spec: the Media test of section 4.3. The
    placeholder is the entire informative content of the body: the body
    is the placeholder, white space around it aside. *)
Definition is_media (b : text) : bool := text_eqb (strip b) media_placeholder.

(** Modelled from the spec: the LinkBearing test of section 4.3. The
    body holds a substring with prefix [http://] or [https://]. *)
Definition has_link (b : text) : bool :=
  contains (py "http://") b || contains (py "https://") b.

(** Modelled from the spec: the classification policy of section 4.3,
    applied once to the assembled body. The reserved sender decides
    whatever the body is; among the classes decided by the body, Media
    comes before LinkBearing, and Text is the default. *)
Definition classify (who b : text) : Kind :=
  if text_eqb who system_sender then SystemNotice
  else if is_media b then Media
  else if has_link b then LinkBearing
  else Text.

(** *** Record Assembler *)

(** The record that is open while its continuation lines arrive. *)
Record OpenRecord := mkOpen {
  o_timestamp : datetime;
  o_sender : text;
  o_body : text
}.

(** The state the assembler threads through the lines of one call: the
    open record, the records emitted so far, the lines skipped for want
    of an open record, and the lines that no grammar could read. *)
Record Assembler := mkAssembler {
  current : option OpenRecord;
  emitted : list ChatRecord;
  skipped : nat;
  fell_through : nat
}.

Definition initial : Assembler := mkAssembler None [] 0 0.

Definition open_record (h : HeaderMatch) : OpenRecord :=
  mkOpen (h_timestamp h) (default system_sender (h_sender h)) (h_rest h).

Definition finalize (o : OpenRecord) : ChatRecord :=
  mkRecord (o_timestamp o) (o_sender o) (o_body o)
           (classify (o_sender o) (o_body o)).

(** The records emitted so far, with the open one finalized if any. *)
Definition flush (st : Assembler) : list ChatRecord :=
  emitted st ++ match current st with
                | Some o => [finalize o]
                | None => []
                end.

(** Modelled from the spec: one step of the Record Assembler of section
    4.3. A header finalizes the open record and opens the next one; a
    continuation line is appended to the open body behind a line feed,
    or counted as skipped when no record is open. Every line that fell
    through all the grammars is counted for the audit of section 7,
    whether it is then skipped or folded into a body. *)
Definition feed (cfg : Config) (st : Assembler) (line : text) : Assembler :=
  match decode_header cfg line with
  | Some h =>
      mkAssembler (Some (open_record h)) (flush st) (skipped st)
                  (fell_through st)
  | None =>
      match current st with
      | Some o =>
          mkAssembler
            (Some (mkOpen (o_timestamp o) (o_sender o) (o_body o ++ LF :: line)))
            (emitted st) (skipped st) (S (fell_through st))
      | None =>
          mkAssembler None (emitted st) (S (skipped st)) (S (fell_through st))
      end
  end.

(** Modelled from the spec: the RawLines of the input (section 3). A
    line ends at a line feed or at the end of the text. [cur] holds the
    line being read, reversed. *)
Fixpoint lines_from (cur s : text) : list text :=
  match s with
  | [] => match cur with [] => [] | _ => [rev cur] end
  | c :: s' =>
      if c =? LF then rev cur :: lines_from [] s'
      else lines_from (c :: cur) s'
  end.

Definition lines (s : text) : list text := lines_from [] s.

(** The assembler run over a sequence of lines from a given state. *)
Definition run (cfg : Config) (st : Assembler) (ls : list text) : Assembler :=
  fold_left (feed cfg) ls st.

(** Modelled from the spec: one parse invocation (sections 5 and 6):
    from the decoded text and the configuration to the ordered records
    and the skipped-line count. Every call starts from the initial assembler. *)
Definition parse (cfg : Config) (txt : text) : list ChatRecord * nat :=
  let st := run cfg initial (lines txt) in
  (flush st, skipped st).

(** Modelled from the spec: the audit of section 7, for the caller who
    wants to know how many lines of the input no grammar could read. *)
Definition audit (cfg : Config) (txt : text) : nat :=
  fell_through (run cfg initial (lines txt)).

Definition kind_name (k : Kind) : text :=
  match k with
  | Text => py "Text"
  | Media => py "Media"
  | SystemNotice => py "SystemNotice"
  | LinkBearing => py "LinkBearing"
  end.

Definition record_row (r : ChatRecord) : gmap string cell :=
  <["timestamp" := CTime (timestamp r)]>
  (<["sender" := CStr (sender r)]>
  (<["body" := CStr (body r)]>
  (<["kind" := CStr (kind_name (kind r))]> ∅))).

(** Modelled from the spec: the tabular output of section 6, with the
    columns [timestamp], [sender], [body] and [kind]. *)
Definition to_frame (rs : list ChatRecord) : DataFrame :=
  mkFrame ["timestamp"; "sender"; "body"; "kind"]%string (record_row <$> rs).

(** *** The records, line by line *)

(** The lines at the head of [ls] that are not headers: the preamble of
    an input, or the continuation lines behind a header. *)
Fixpoint preamble (cfg : Config) (ls : list text) : list text :=
  match ls with
  | [] => []
  | l :: ls' => if is_header cfg l then [] else l :: preamble cfg ls'
  end.

(** A body with continuation lines appended, each behind a line feed. *)
Definition join_body (b : text) (conts : list text) : text :=
  fold_left (fun acc l => acc ++ LF :: l) conts b.

(** Modelled from the spec: the invariant of section 3, as a function
    of the lines: one record for each header line, made of that header
    and of the continuation lines that follow it up to the next header. *)
Fixpoint records_of (cfg : Config) (ls : list text) : list ChatRecord :=
  match ls with
  | [] => []
  | l :: ls' =>
      match decode_header cfg l with
      | Some h =>
          let o := open_record h in
          finalize (mkOpen (o_timestamp o) (o_sender o)
                           (join_body (o_body o) (preamble cfg ls')))
          :: records_of cfg ls'
      | None => records_of cfg ls'
      end
  end.

Definition month_first : Config := mkConfig MonthFirst priority.
Definition day_first : Config := mkConfig DayFirst priority.

End ChatParser.

(** ** The words behind two of the charts (lines 107 to 128) *)

(** The test of line 110, in the order it is written:
    ['http' not in msg and not msg.startswith('<Media')]. *)
Definition in_common_words (msg : text) : bool :=
  negb (contains (py "http") msg) && negb (startswith (py "<Media") msg).

(** The test of line 128:
    [not msg.startswith('<Media') and 'http' not in msg]. *)
Definition in_word_cloud (msg : text) : bool :=
  negb (startswith (py "<Media") msg) && negb (contains (py "http") msg).

(** [sep.join(parts)]. *)
Fixpoint join (sep : text) (parts : list text) : text :=
  match parts with
  | [] => []
  | p :: rest =>
      match rest with
      | [] => p
      | _ :: _ => p ++ sep ++ join sep rest
      end
  end.

(** The text handed to the word cloud at line 128, for a message column
    of strings. *)
Definition wordcloud_text (msgs : list text) : text :=
  join (py " ") (List.filter in_word_cloud msgs).

(** The stop words of line 113. *)
Definition stop : list text :=
  [ py "the"; py "a"; py "to"; py "is"; py "and"; py "i"; py "you";
    py "of"; py "in"; py "for"; py "on"; py "me"; py "my"; py "it";
    py "this"; py "that"; py "so"; py "at"; py "be" ].

(** [w not in stop]. *)
Definition not_stop (w : text) : bool := negb (bool_decide (w ∈ stop)).

(** One more occurrence of [w] in a [Counter]: a known key is counted
    up in place, a new key goes behind the others, as in a [dict]. *)
Fixpoint count_up (w : text) (c : list (text * nat)) : list (text * nat) :=
  match c with
  | [] => [(w, 1%nat)]
  | (k, n) :: c' =>
      if bool_decide (k = w) then (k, S n) :: c'
      else (k, n) :: count_up w c'
  end.

(** [Counter(ws)]: the keys in the order of their first occurrence. *)
Definition Counter (ws : list text) : list (text * nat) :=
  fold_left (fun c w => count_up w c) ws [].

(** An entry put in front of the entries that do not count more:
    equal counts keep the order they had. *)
Fixpoint insert_by_count (x : text * nat) (l : list (text * nat))
  : list (text * nat) :=
  match l with
  | [] => [x]
  | y :: l' =>
      if (snd y <=? snd x)%nat then x :: y :: l'
      else y :: insert_by_count x l'
  end.

(** [c.most_common(n)]: the entries by falling count, the first [n]. *)
Definition most_common (n : nat) (c : list (text * nat)) : list (text * nat) :=
  take n (fold_right insert_by_count [] c).

Section Words.

(** [str.lower()]. *)
Variable lower : text -> text.

(** The loop of lines 109 to 111 on a message column of strings. *)
Definition words_of (msgs : list text) : list text :=
  flat_map (fun msg => if in_common_words msg then split (lower msg) else [])
           msgs.

(** [freq] of line 115. *)
Definition common_words (msgs : list text) : list (text * nat) :=
  most_common 15 (Counter (List.filter not_stop (words_of msgs))).

End Words.

(** How often [w] occurs in [ws]. *)
Definition occurrences (w : text) (ws : list text) : nat :=
  length (List.filter (fun x => bool_decide (x = w)) ws).

(** What a [Counter] holds for [w], over all its entries. *)
Fixpoint tally (c : list (text * nat)) (w : text) : nat :=
  match c with
  | [] => 0
  | (k, n) :: c' => (if bool_decide (k = w) then n else 0) + tally c' w
  end.

(** Entries in the order of [most_common]: no count rises. *)
Definition by_count (a b : text * nat) : Prop := (snd b <= snd a)%nat.

(** A Unicode scalar value: a code point up to U+10FFFF that is no
    surrogate. *)
Definition is_scalar (c : N) : Prop :=
  c < 1114112 /\ (c < 55296 \/ 57343 < c).

(** ** The emoji count (lines 141 to 154) *)

Section Emoji.

(** [k in emoji.EMOJI_DATA]: whether the string [k] is a key of the
    library's table. *)
Variable EMOJI_DATA : text -> bool.

(** [extract_emojis(s)]: the characters of [s] that are keys of the
    table, each as a string of one character. *)
Definition extract_emojis (s : text) : list text :=
  (fun c => [c]) <$> List.filter (fun c => EMOJI_DATA [c]) s.

(** [all_emojis] after the loop of lines 145 and 146, for a message
    column of strings. *)
Definition all_emojis (msgs : list text) : list text :=
  flat_map extract_emojis msgs.

(** The table behind the emoji chart, which is drawn only when
    [len(all_emojis)] is not zero. *)
Definition emoji_chart (msgs : list text) : option (list (text * nat)) :=
  match length (all_emojis msgs) with
  | O => None
  | S _ => Some (most_common 10 (Counter (all_emojis msgs)))
  end.

End Emoji.

(** ** The page [whatsapp_chat_analyzer] *)

(** The values kept in [st.session_state]. *)
Inductive pyval :=
| PyNone
| PyBool (b : bool)
| PyInt (z : Z)
| PyStr (s : text)
| PyFrame (df : DataFrame).

(** The truth value Python gives to [v] in [not v]; a data frame has
    none and raises. *)
Definition truthy (v : pyval) : result bool :=
  match v with
  | PyNone => Ok false
  | PyBool b => Ok b
  | PyInt z => Ok (negb (z =? 0)%Z)
  | PyStr s => Ok (match s with [] => false | _ => true end)
  | PyFrame _ => Err ValueError
  end.

(** What a run of the page does that can be seen from outside: the
    Streamlit calls, and the call of the parser. Titles are given
    without their pictographs; [EvWrite] is the [st.write] of a label
    followed by a number. *)
Inductive event :=
| EvWarning (msg : string)
| EvTitle (s : string)
| EvFileUploader (label : string)
| EvParse (chat_data : text)
| EvSubheader (s : string)
| EvDataframe (df : DataFrame)
| EvMetric (label : string) (value : nat)
| EvButton (key : string)
| EvChart (title : string) (data : list (list cell))
| EvError (e : exn)
| EvSwitchPage (page : string)
| EvWrite (label : string) (n : nat).

(** The session dictionary, which outlives a run, and the calls made so
    far, oldest first. *)
Record world := mkWorld {
  session : gmap string pyval;
  trace : list event
}.

(** What the browser hands to one run of the script. *)
Record inputs := mkInputs {
  uploaded_file : option (list byte);
  sent_btn : bool;
  tox_btn : bool
}.

(** How a run of the function ends: it returns, it leaves for another
    page, or an exception escapes it. *)
Inductive exit :=
| Returned
| Switched (page : string)
| Escaped (e : exn).

#[global] Instance result_ret : MRet result := @Ok.
#[global] Instance result_bind : MBind result :=
  fun A B f r => match r with Ok a => f a | Err e => Err e end.

(** Statements inside the [try] block: they read and change the world
    and may raise. *)
Definition M (A : Type) : Type := world -> result A * world.

#[global] Instance M_ret : MRet M := fun A a w => (Ok a, w).
#[global] Instance M_bind : MBind M :=
  fun A B f m w =>
    match m w with
    | (Ok a, w') => f a w'
    | (Err e, w') => (Err e, w')
    end.

Definition lift {A} (r : result A) : M A := fun w => (r, w).

Definition log (ev : event) (w : world) : world :=
  mkWorld (session w) (trace w ++ [ev]).

Definition emit (ev : event) : M unit := fun w => (Ok tt, log ev w).

(** [st.session_state[k] = v]. *)
Definition store (k : string) (v : pyval) (w : world) : world :=
  mkWorld (<[k := v]> (session w)) (trace w).

Definition put_session (k : string) (v : pyval) : M unit :=
  fun w => (Ok tt, store k v w).

(** [st.session_state.get(k, d)]. *)
Definition session_get (k : string) (d : pyval) (w : world) : pyval :=
  default d (session w !! k).

(** [len(x.split())] on one cell of the message column; a cell that is
    not a string has no [split]. *)
Definition count_words (v : cell) : result nat :=
  match v with
  | CStr s => Ok (length (split s))
  | _ => Err AttributeError
  end.

(** [col.apply(lambda x: len(x.split())).sum()]. *)
Fixpoint total_words_of (col : list cell) : result nat :=
  match col with
  | [] => Ok 0%nat
  | v :: col' =>
      n ← count_words v;
      m ← total_words_of col';
      Ok (n + m)%nat
  end.

(** One entry of [col.str.contains('<Media omitted>')]; a cell that is
    not a string gives a missing value, which the sum skips. *)
Definition contains_media (v : cell) : bool :=
  match v with
  | CStr s => contains (py "<Media omitted>") s
  | _ => false
  end.

(** One entry of [col.str.contains(r'http[s]?://', regex=True)]. *)
Definition contains_link (v : cell) : bool :=
  match v with
  | CStr s => search_link s
  | _ => false
  end.

Definition total_media_of (col : list cell) : nat :=
  length (List.filter contains_media col).

Definition total_links_of (col : list cell) : nat :=
  length (List.filter contains_link col).

(** What stands between the data of a chart and its drawing: nothing,
    the test [if freq:] of line 116, or the line [st.write] of line
    148 followed by the test [if len(all_emojis):] of line 150. *)
Inductive chart_guard :=
| Always
| IfWords
| IfEmojis.

(** One of the charts below the statistics: its heading, the derived
    column it adds to the frame (new column, source column) if any, the
    columns it subscripts, in evaluation order, and what decides
    whether it is drawn. *)
Record chart_step := mkStep {
  step_title : string;
  step_assign : option (string * string);
  step_reads : list string;
  step_guard : chart_guard
}.

(** The charts of the page, in program order. *)
Definition analysis_steps : list chart_step :=
  [ mkStep "Messages by Day of Week" (Some ("day_name", "date")) ["day_name"]
           Always;
    mkStep "Messages by Hour" (Some ("hour", "date")) ["hour"] Always;
    mkStep "Messages per Month" (Some ("month", "date")) ["month"] Always;
    mkStep "Message Length Distribution" (Some ("msg_length", "message"))
           ["msg_length"] Always;
    mkStep "Daily Messages Trend" None ["date"] Always;
    mkStep "Weekly Activity Heatmap" None ["date"; "date"; "message"] Always;
    mkStep "Most Common Words" None ["message"] IfWords;
    mkStep "User Activity Over Time" (Some ("day", "date"))
           ["message"; "day"; "user"] Always;
    mkStep "Word Cloud" None ["message"] Always;
    mkStep "Messages Distribution by User" None ["user"] Always;
    mkStep "Emoji Usage" None ["message"] IfEmojis ]%string.

(** The messages a loop of the page goes through ([for msg in
    df['message']] with ['http' not in msg] at line 110, [for c in s] at
    line 143): a cell that is not a string cannot be searched or
    iterated. *)
Fixpoint strings_of (col : list cell) : result (list text) :=
  match col with
  | [] => Ok []
  | CStr s :: col' => msgs ← strings_of col'; Ok (s :: msgs)
  | _ :: _ => Err TypeError
  end.

Fixpoint read_all (cs : list string) (df : DataFrame)
  : result (list (list cell)) :=
  match cs with
  | [] => Ok []
  | c :: cs' =>
      col ← getitem c df;
      more ← read_all cs' df;
      Ok (col :: more)
  end.

Section Page.

(** [chat_parser.preprocess_chat], as the page calls it: one argument,
    the decoded text, and one result, the frame (or an exception). *)
Variable preprocess_chat : text -> result DataFrame.

(** [pd.to_datetime(col, errors='coerce')]: a timestamp where the
    value can be read as one, [NaT] elsewhere. *)
Variable to_datetime : list cell -> list cell.

(** The column computations of the charts ([.dt.day_name()],
    [.dt.hour], [.dt.to_period('M')], [.apply(len)], [.dt.date]), by
    the name of the column they fill. *)
Variable derive : string -> list cell -> result (list cell).

(** The plotting libraries: the exception a chart raises on the data
    it is given, if it raises. *)
Variable draw : string -> list (list cell) -> option exn.

(** [str.lower()]. *)
Variable lower : text -> text.

(** [k in emoji.EMOJI_DATA]. *)
Variable EMOJI_DATA : text -> bool.

(** [st.switch_page(p)]: the exception the call raises, if it raises;
    if it does not, the run leaves for the page [p]. *)
Variable switch_page : string -> option exn.

(** [df[c] = vals] once [df] is also [st.session_state['chat_df']]:
    the local name and the session entry are one object, so the new
    column shows through both. *)
Definition set_shared (c : string) (vals : list cell) (df : DataFrame)
  : M DataFrame :=
  df' ← lift (setitem c vals df);
  put_session "chat_df" (PyFrame df');;
  mret df'.

(** Whether a chart is drawn, decided on the columns it has read (for
    the two guarded charts, the message column). The emoji total of
    line 148 is written before the test of line 150. *)
Definition passes (g : chart_guard) (data : list (list cell)) : M bool :=
  match g with
  | Always => mret true
  | IfWords =>
      msgs ← lift (strings_of (concat data));
      mret (match common_words lower msgs with
            | [] => false
            | _ :: _ => true
            end)
  | IfEmojis =>
      msgs ← lift (strings_of (concat data));
      emit (EvWrite "Total Emojis Used: "
                    (length (all_emojis EMOJI_DATA msgs)));;
      mret (match length (all_emojis EMOJI_DATA msgs) with
            | O => false
            | S _ => true
            end)
  end.

(** The drawing, if the chart has data. The event of a chart carries
    the columns it was made from. *)
Definition show_chart (title : string) (data : list (list cell)) (go : bool)
  : M unit :=
  if go
  then match draw title data with
       | Some e => lift (Err e)
       | None => emit (EvChart title data)
       end
  else mret tt.

(** What a chart does with the columns it has read. *)
Definition draw_chart (s : chart_step) (data : list (list cell)) : M unit :=
  go ← passes (step_guard s) data;
  show_chart (step_title s) data go.

(** One chart: its heading, its derived column if it has one, the
    columns it subscripts, then the drawing if the chart has data. *)
Definition run_step (s : chart_step) (df : DataFrame) : M DataFrame :=
  emit (EvSubheader (step_title s));;
  df ← match step_assign s with
       | Some (new, src) =>
           col ← lift (getitem src df);
           vals ← lift (derive new col);
           set_shared new vals df
       | None => mret df
       end;
  data ← lift (read_all (step_reads s) df);
  draw_chart s data;;
  mret df.

Fixpoint run_steps (ss : list chart_step) (df : DataFrame) : M DataFrame :=
  match ss with
  | [] => mret df
  | s :: ss' => df ← run_step s df; run_steps ss' df
  end.

(** [if st.button(label, key=k): st.session_state['go_to_page'] = p].
    A widget with a key has its value in the session under that key. *)
Definition button (k : string) (clicked : bool) (p : string) : M unit :=
  emit (EvButton k);;
  put_session k (PyBool clicked);;
  if clicked then put_session "go_to_page" (PyStr (py p)) else mret tt.

(** From the decoding of the upload to the stored frame (lines 27 to
    35 of the page). *)
Definition load_chat (raw : list byte) : M DataFrame :=
  chat_data ← lift (match utf8_decode raw with
                    | Some t => Ok t
                    | None => Err UnicodeDecodeError
                    end);
  emit (EvParse chat_data);;
  df ← lift (preprocess_chat chat_data);
  dates ← lift (getitem "date" df);
  df ← lift (setitem "date" (to_datetime dates) df);
  df ← lift (dropna "date" df);
  put_session "chat_df" (PyFrame df);;
  mret df.

(** The preview and the four statistics (lines 37 to 52). *)
Definition basic_statistics (df : DataFrame) : M unit :=
  emit (EvSubheader "Chat Preview");;
  emit (EvDataframe (head 20 df));;
  emit (EvSubheader "Basic Statistics");;
  let total_messages := nrows df in
  msgs ← lift (getitem "message" df);
  total_words ← lift (total_words_of msgs);
  msgs ← lift (getitem "message" df);
  let total_media := total_media_of msgs in
  msgs ← lift (getitem "message" df);
  let total_links := total_links_of msgs in
  emit (EvMetric "Messages" total_messages);;
  emit (EvMetric "Words" total_words);;
  emit (EvMetric "Media Shared" total_media);;
  emit (EvMetric "Links Shared" total_links).

(** Everything the [try] block does with the stored frame (lines 37 to
    154): the statistics, the two buttons and the charts. *)
Definition analysis (inp : inputs) (df : DataFrame) : M unit :=
  basic_statistics df;;
  emit (EvSubheader "More Analysis Options");;
  button "sent_btn" (sent_btn inp) "sentiment";;
  button "tox_btn" (tox_btn inp) "toxicity";;
  run_steps analysis_steps df;;
  mret tt.

(** The body of the [try] block. *)
Definition try_body (inp : inputs) (raw : list byte) : M unit :=
  df ← load_chat raw;
  analysis inp df.

(** [except Exception as e: st.error(...)]. *)
Definition guarded (inp : inputs) (raw : list byte) (w : world) : world :=
  match try_body inp raw w with
  | (Ok _, w') => w'
  | (Err e, w') => log (EvError e) w'
  end.

(** [if st.session_state.get('go_to_page') == p]: a string is
    compared, a frame compares cell by cell and has no truth value,
    anything else is not equal to a string. *)
Definition goes_to (p : string) (w : world) : result bool :=
  match session w !! "go_to_page" with
  | Some (PyStr s) => Ok (bool_decide (s = py p))
  | Some (PyFrame _) => Err ValueError
  | _ => Ok false
  end.

(** [st.switch_page(p)], outside the [try] block: an exception of the
    call escapes the function; without one the call does not come back
    to the script. *)
Definition leave (p : string) (w : world) : exit * world :=
  match switch_page p with
  | Some e => (Escaped e, w)
  | None => (Switched p, log (EvSwitchPage p) w)
  end.

(** The redirect logic that ends the function (lines 160 to 164). *)
Definition redirect (w : world) : exit * world :=
  match goes_to "sentiment" w with
  | Err e => (Escaped e, w)
  | Ok true => leave "pages/2_Sentiment_Analysis" w
  | Ok false =>
      match goes_to "toxicity" w with
      | Err e => (Escaped e, w)
      | Ok true => leave "pages/3_Toxicity_Analysis" w
      | Ok false => (Returned, w)
      end
  end.

(** The text of [st.warning] at line 18. *)
Definition login_warning : string :=
  "You must log in as admin to access the Chat Analyzer.".

(** One run of [whatsapp_chat_analyzer]. *)
Definition whatsapp_chat_analyzer (inp : inputs) (w : world) : exit * world :=
  match truthy (session_get "admin_logged_in" (PyBool false) w) with
  | Err e => (Escaped e, w)
  | Ok false => (Returned, log (EvWarning login_warning) w)
  | Ok true =>
      let w := log (EvTitle "WhatsApp Chat Analyzer") w in
      let w := log (EvFileUploader "Upload your WhatsApp chat file (.txt)") w in
      let w := match uploaded_file inp with
               | Some raw => guarded inp raw w
               | None => w
               end in
      redirect w
  end.

End Page.

(** ** Vocabulary of the statements *)

(** The frame the page keeps from a parser result [df0]: the dates
    coerced, and the rows whose date came out missing left out. *)
Definition cleaned (to_datetime : list cell -> list cell) (df0 : DataFrame)
  : DataFrame :=
  mkFrame (columns df0)
    (List.filter (fun r => negb (isna (at_col "date" r)))
       (zip_with (fun r v => <["date" := v]> r) (rows df0)
          (to_datetime (at_col "date" <$> rows df0)))).

(** Several calls logged in a row. *)
Definition logs (evs : list event) (w : world) : world :=
  fold_left (fun w ev => log ev w) evs w.

(** The plotting library does not raise a [KeyError] of its own. *)
Definition no_key_error_raised (r : option exn) : Prop :=
  match r with
  | Some (KeyError _) => False
  | _ => True
  end.

(** What a call may show of a frame of [n] rows: a chart is drawn from
    columns of [n] cells, a table preview has at most [n] rows, and
    there is no warning. *)
Definition about_rows (n : nat) (ev : event) : Prop :=
  match ev with
  | EvChart _ data => Forall (fun col => length col = n) data
  | EvDataframe df => (nrows df <= n)%nat
  | EvWarning _ => False
  | _ => True
  end.

(** The world [w'] comes from [w] by calls that all satisfy [P]. *)
Definition extends_by (P : event -> Prop) (w w' : world) : Prop :=
  exists evs, trace w' = trace w ++ evs /\ Forall P evs.

(** The result is not a [KeyError]. *)
Definition no_key_error {A} (r : result A) : Prop :=
  match r with
  | Err (KeyError _) => False
  | _ => True
  end.

(** The charts [ss] only subscript columns that are among [cols] or
    that an earlier chart has added. *)
Fixpoint scoped (cols : list string) (ss : list chart_step) : bool :=
  match ss with
  | [] => true
  | s :: ss' =>
      let cols' := match step_assign s with
                   | Some (new, _) => new :: cols
                   | None => cols
                   end in
      match step_assign s with
      | Some (_, src) => bool_decide (src ∈ cols)
      | None => true
      end
      && forallb (fun c => bool_decide (c ∈ cols')) (step_reads s)
      && scoped cols' ss'
  end.

(** ** What a run does to the world *)

(** The two things a statement of the page can do to the world. *)
Inductive effect :=
| Logged (ev : event)
| Stored (k : string) (v : pyval).

Definition perform (w : world) (a : effect) : world :=
  match a with
  | Logged ev => log ev w
  | Stored k v => store k v w
  end.

(** The world [w'] comes from [w] by effects that all satisfy [P]. *)
Definition performs (P : effect -> Prop) (w w' : world) : Prop :=
  exists acts, w' = fold_left perform acts w /\ Forall P acts.

(** The calls a chart makes once its columns are read. *)
Definition chart_call (s : chart_step) (data : list (list cell)) (ev : event)
  : Prop :=
  ev = EvChart (step_title s) data \/
  exists n, ev = EvWrite "Total Emojis Used: " n.

(** What a chart may do: show its heading, the emoji total and itself,
    and write the frame back under [chat_df]. *)
Definition chart_effect (a : effect) : Prop :=
  match a with
  | Logged (EvSubheader _) | Logged (EvChart _ _) | Logged (EvWrite _ _) => True
  | Stored k (PyFrame _) => k = "chat_df"%string
  | _ => False
  end.

(** What the statements behind the stored frame may do, given the
    clicks of the run. *)
Definition analysis_effect (inp : inputs) (a : effect) : Prop :=
  match a with
  | Logged (EvSubheader _) | Logged (EvDataframe _) | Logged (EvMetric _ _)
  | Logged (EvButton _) | Logged (EvChart _ _) | Logged (EvWrite _ _) => True
  | Logged _ => False
  | Stored k v =>
      (k = "chat_df"%string /\ exists df, v = PyFrame df) \/
      (k = "go_to_page"%string /\
       ((sent_btn inp = true /\ v = PyStr (py "sentiment")) \/
        (tox_btn inp = true /\ v = PyStr (py "toxicity")))) \/
      (k = "sent_btn"%string /\ v = PyBool (sent_btn inp)) \/
      (k = "tox_btn"%string /\ v = PyBool (tox_btn inp))
  end.

(** What the body of the [try] block may do. *)
Definition try_effect (inp : inputs) (a : effect) : Prop :=
  match a with
  | Logged (EvParse _) => True
  | _ => analysis_effect inp a
  end.

(** The columns the charts [ss] fill. *)
Definition assigned (ss : list chart_step) : list string :=
  omap (fun s => fst <$> step_assign s) ss.

(** The call of the parser a run logs for the upload [raw], if any. *)
Definition parse_event (raw : list byte) : list event :=
  match utf8_decode raw with
  | Some txt => [EvParse txt]
  | None => []
  end.

(** How the call [st.switch_page(p)] ends the run. *)
Definition switched (switch_page : string -> option exn) (p : string) : exit :=
  match switch_page p with
  | Some e => Escaped e
  | None => Switched p
  end.

(** How a run that reaches the redirect logic ends, read off the
    session entry [go_to_page]. *)
Definition destination (switch_page : string -> option exn)
           (v : option pyval) : exit :=
  match v with
  | Some (PyStr s) =>
      if bool_decide (s = py "sentiment")
      then switched switch_page "pages/2_Sentiment_Analysis"
      else if bool_decide (s = py "toxicity")
      then switched switch_page "pages/3_Toxicity_Analysis"
      else Returned
  | Some (PyFrame _) => Escaped ValueError
  | _ => Returned
  end.

(** The frame [df'] is [df] with columns added or refilled: the same
    number of rows, no column lost, and outside the columns [news] the
    same cells. *)
Definition frame_grows (news : list string) (df df' : DataFrame) : Prop :=
  nrows df' = nrows df /\
  (forall c, c ∈ columns df -> c ∈ columns df') /\
  (forall c, c ∉ news -> at_col c <$> rows df' = at_col c <$> rows df).

(** What a button does to the world: it is shown, its value is kept
    under its key, and a click writes the page to go to. *)
Definition press (k : string) (clicked : bool) (p : string) (w : world)
  : world :=
  let w := store k (PyBool clicked) (log (EvButton k) w) in
  if clicked then store "go_to_page" (PyStr (py p)) w else w.

(** The world in which the charts start, after the statistics were
    shown in [w1]. *)
Definition after_buttons (inp : inputs) (w1 : world) : world :=
  press "tox_btn" (tox_btn inp) "toxicity"
    (press "sent_btn" (sent_btn inp) "sentiment"
       (log (EvSubheader "More Analysis Options") w1)).

(** The session entry [go_to_page] once both buttons were passed. *)
Definition clicked_page (inp : inputs) (old : option pyval) : option pyval :=
  if tox_btn inp then Some (PyStr (py "toxicity"))
  else if sent_btn inp then Some (PyStr (py "sentiment"))
  else old.

(** The world of a logged-in run when the [try] block is entered. *)
Definition page_shown (w : world) : world :=
  log (EvFileUploader "Upload your WhatsApp chat file (.txt)")
      (log (EvTitle "WhatsApp Chat Analyzer") w).

(** What the call of line 28 may hand back, as Python sees it: one
    frame, or the pair of a table and a count of skipped lines. *)
Inductive returned :=
| OneFrame (df : DataFrame)
| TwoParts (table : DataFrame) (skipped_lines : nat).

(** The value bound at line 28 as the page uses it from line 31 on: it
    is subscripted by a column name, which a pair (a [tuple]) does not
    allow. *)
Definition as_frame (r : returned) : result DataFrame :=
  match r with
  | OneFrame df => Ok df
  | TwoParts _ _ => Err TypeError
  end.

(** The call of line 28 with a parser whose result may be either. *)
Definition call (parser : text -> result returned) (chat_data : text)
  : result DataFrame :=
  r ← parser chat_data; as_frame r.

(** What the body of the [try] block may show: no warning and no error
    message, and no count but the four statistics and the emoji total. *)
Definition page_number (ev : event) : Prop :=
  match ev with
  | EvMetric l _ =>
      l ∈ ["Messages"; "Words"; "Media Shared"; "Links Shared"]%string
  | EvWrite l _ => l = "Total Emojis Used: "%string
  | EvWarning _ | EvError _ => False
  | _ => True
  end.

(** ** Inputs and instances used in the examples *)

(** The scenario of section 8 of the specification. *)
Definition scenario : text :=
  py "12/1/23, 10:05 - Alice: Hello there" ++ LF ::
  py "nice to meet you" ++ LF ::
  py "12/1/23, 10:06 - Bob: Hi!".

(** The same scenario as the bytes of an uploaded file. *)
Definition scenario_bytes : list byte :=
  bytes_of "12/1/23, 10:05 - Alice: Hello there" ++ x0a ::
  bytes_of "nice to meet you" ++ x0a ::
  bytes_of "12/1/23, 10:06 - Bob: Hi!".

(** The parser of the specification behind the interface the page
    calls: the text goes in, the four-column table comes out. *)
Definition spec_parser (cfg : ChatParser.Config) (txt : text) : result DataFrame :=
  Ok (ChatParser.to_frame (fst (ChatParser.parse cfg txt))).

(** The session flag the page tests first. *)
Definition admin_logged_in (w : world) : result bool :=
  truthy (session_get "admin_logged_in" (PyBool false) w).

Definition logged_in : world :=
  mkWorld (<["admin_logged_in" := PyBool true]> ∅) [].

Definition logged_out : world := mkWorld ∅ [].

(** A coercion for the examples: timestamps stay, everything else is
    not a time. *)
Definition coerce_times (col : list cell) : list cell :=
  (fun v => match v with CTime t => CTime t | _ => CNaT end) <$> col.

(** Column computations and plotting that never fail, for the examples. *)
Definition derive_same (c : string) (col : list cell) : result (list cell) :=
  Ok col.

Definition draw_fine (title : string) (data : list (list cell)) : option exn :=
  None.

(** [str.lower()] on messages without capitals, and a table of emoji
    with the grinning face alone, for the examples. *)
Definition lower_plain (s : text) : text := s.

Definition grinning_only (k : text) : bool := bool_decide (k = [128512]).

(** [st.switch_page] as Streamlit answers a path that names no page
    file: the paths of lines 161 and 164 come without the extension
    [.py]. *)
Definition page_not_found (p : string) : option exn :=
  Some (LibraryError "StreamlitAPIException").

(** The parser of the specification with its result in two parts. *)
Definition spec_call (cfg : ChatParser.Config) (txt : text) : result returned :=
  Ok (TwoParts (ChatParser.to_frame (fst (ChatParser.parse cfg txt)))
               (snd (ChatParser.parse cfg txt))).

(** A parser result with the columns the page reads; the date of the
    second row is not a time. *)
Definition two_rows : DataFrame :=
  mkFrame ["date"; "user"; "message"]%string
    [ <["date" := CTime (mkDatetime 2023 12 1 10 5 0)]>
        (<["user" := CStr (py "Alice")]>
        (<["message" := CStr (py "Hello there")]> ∅));
      <["date" := CStr (py "yesterday")]>
        (<["user" := CStr (py "Bob")]>
        (<["message" := CStr (py "see https://example.com")]> ∅)) ].

Definition upload (s : string) : inputs := mkInputs (Some (bytes_of s)) false false.

(** ** Examples *)

Example utf8_ascii : utf8_decode (bytes_of "Hi!") = Some (py "Hi!").
Proof. reflexivity. Qed.

Example utf8_euro : utf8_decode [xe2; x82; xac] = Some [8364].
Proof. reflexivity. Qed.

Example utf8_overlong : utf8_decode [xc0; x80] = None.
Proof. reflexivity. Qed.

Example utf8_truncated : utf8_decode [xe2; x82] = None.
Proof. reflexivity. Qed.

Example split_example :
  split (py "  hello   big world ") = [py "hello"; py "big"; py "world"].
Proof. reflexivity. Qed.

Example search_link_example :
  search_link (py "see https://example.com") = true /\
  search_link (py "see http://a") = true /\
  search_link (py "https:/nope httpx://") = false.
Proof. repeat split; reflexivity. Qed.


(** Lines that no grammar reads are skipped in front of the first
    header and folded into the open record behind it. *)
Example malformed_lines :
  ChatParser.parse ChatParser.month_first
    (py "chat export" ++ LF :: py "[99/99/99, 10:05:00] Eve: no such date" ++ LF ::
     py "12/1/23, 10:05 PM - Alice: hi" ++ LF :: py "[half a header") =
  ([ChatParser.mkRecord (mkDatetime 2023 12 1 22 5 0) (py "Alice")
      (py "hi" ++ LF :: py "[half a header") ChatParser.Text], 2%nat).
Proof. vm_compute. reflexivity. Qed.

(** Of the four lines above, three fell through all the grammars. *)
Example audit_example :
  ChatParser.audit ChatParser.month_first
    (py "chat export" ++ LF :: py "[99/99/99, 10:05:00] Eve: no such date" ++ LF ::
     py "12/1/23, 10:05 PM - Alice: hi" ++ LF :: py "[half a header") = 3%nat.
Proof. vm_compute. reflexivity. Qed.

Example bracket_header :
  ChatParser.parse ChatParser.day_first
    (py "[1/12/23, 10:05:09] Bob: look https://example.com") =
  ([ChatParser.mkRecord (mkDatetime 2023 12 1 10 5 9) (py "Bob")
      (py "look https://example.com") ChatParser.LinkBearing], 0%nat).
Proof. vm_compute. reflexivity. Qed.

Example system_line :
  ChatParser.parse ChatParser.month_first
    (py "12/1/23, 10:05 - Alice joined using this group's invite link") =
  ([ChatParser.mkRecord (mkDatetime 2023 12 1 10 5 0) (py "system")
      (py "Alice joined using this group's invite link")
      ChatParser.SystemNotice], 0%nat).
Proof. vm_compute. reflexivity. Qed.

(** The two tallies of the page are taken one by one: a body with the
    placeholder and a link enters both. *)
Example media_and_link :
  let col := [CStr (py "<Media omitted> https://example.com")] in
  total_media_of col = 1%nat /\ total_links_of col = 1%nat.
Proof. split; reflexivity. Qed.

(** A run with the admin logged in, on a parser result with one bad
    date: the row is gone from the statistics. *)
Example logged_in_run :
  take 9 (trace (snd (whatsapp_chat_analyzer (fun _ => Ok two_rows)
                        coerce_times derive_same draw_fine lower_plain
      grinning_only page_not_found (upload "hi")
                        logged_in))) =
  [ EvTitle "WhatsApp Chat Analyzer";
    EvFileUploader "Upload your WhatsApp chat file (.txt)";
    EvParse (py "hi");
    EvSubheader "Chat Preview";
    EvDataframe (cleaned coerce_times two_rows);
    EvSubheader "Basic Statistics";
    EvMetric "Messages" 1; EvMetric "Words" 2;
    EvMetric "Media Shared" 0 ].
Proof. vm_compute. reflexivity. Qed.

(** The same run ends with the emoji total and without the emoji chart:
    no message holds an emoji. *)
Example emoji_total_without_chart :
  drop 33 (trace (snd (whatsapp_chat_analyzer (fun _ => Ok two_rows)
                         coerce_times derive_same draw_fine lower_plain
                         grinning_only page_not_found (upload "hi")
                         logged_in))) =
  [ EvSubheader "Emoji Usage"; EvWrite "Total Emojis Used: " 0 ].
Proof. vm_compute. reflexivity. Qed.

(** A click on the sentiment button, with [st.switch_page] refusing the
    path: the exception escapes the function. *)
Example click_with_page_not_found :
  fst (whatsapp_chat_analyzer (fun _ => Ok two_rows) coerce_times derive_same
         draw_fine lower_plain grinning_only page_not_found
         (mkInputs (Some (bytes_of "hi")) true false) logged_in) =
  Escaped (LibraryError "StreamlitAPIException").
Proof. vm_compute. reflexivity. Qed.

Example common_words_example :
  common_words (fun s => s)
    [py "the cat and the dog"; py "cat https://example.com";
     py "<Media omitted>"; py "dog cat  bird"] =
  [(py "cat", 2%nat); (py "dog", 2%nat); (py "bird", 1%nat)].
Proof. vm_compute. reflexivity. Qed.

Example wordcloud_text_example :
  wordcloud_text [py "hello there"; py "see http://a.b"; py "<Media omitted>";
                  py "bye"] = py "hello there bye".
Proof. reflexivity. Qed.

Example emoji_example :
  emoji_chart (fun k => bool_decide (k = [128512]) || bool_decide (k = [10084]))
    [[128512; 32; 104; 105; 32; 128512]; [10084]; py "plain"] =
  Some [([128512], 2%nat); ([10084], 1%nat)].
Proof. vm_compute. reflexivity. Qed.

(** ** Facts about text *)

Lemma startswith_spec (p s : text) :
  startswith p s = true <-> exists t, s = p ++ t.
Proof.
  revert s. induction p as [|a p IH]; intros s; simpl.
  - split; [intros _; by exists s | done].
  - destruct s as [|b s].
    + split; [done | intros [t Ht]; discriminate].
    + rewrite andb_true_iff, N.eqb_eq, IH. split.
      * intros [-> [t ->]]. by exists t.
      * intros [t Ht]. injection Ht as -> ->. eauto.
Qed.

Lemma strip_prefix_spec (p s r : text) :
  strip_prefix p s = Some r <-> s = p ++ r.
Proof.
  revert s. induction p as [|a p IH]; intros s; simpl.
  - split; [by intros [= ->] | by intros ->].
  - destruct s as [|b s]; [done|].
    destruct (N.eqb_spec a b) as [->|Hne].
    + rewrite IH. split; [by intros -> | by intros [= ->]].
    + split; [done | intros [= -> _]; done].
Qed.

Lemma contains_spec (p s : text) :
  contains p s = true <-> exists pre post, s = pre ++ p ++ post.
Proof.
  induction s as [|c s IH]; simpl.
  - rewrite orb_false_r, startswith_spec. split.
    + intros [t Ht]. by exists [], t.
    + intros [pre [post H]]. destruct pre; [by exists post | done].
  - rewrite orb_true_iff, startswith_spec, IH. split.
    + intros [[t Ht] | [pre [post ->]]].
      * by exists [], t.
      * by exists (c :: pre), post.
    + intros [[|d pre] [post H]].
      * left. by exists post.
      * right. injection H as -> ->. by exists pre, post.
Qed.

Lemma contains_app (p a b : text) :
  contains p a = true \/ contains p b = true -> contains p (a ++ b) = true.
Proof.
  rewrite !contains_spec. intros [[pre [post ->]] | [pre [post ->]]].
  - exists pre, (post ++ b). by rewrite <- !app_assoc.
  - exists (a ++ pre), post. by rewrite <- !app_assoc.
Qed.

Lemma startswith_strip (p q s : text) :
  startswith (p ++ q) s =
  match strip_prefix p s with
  | Some r => startswith q r
  | None => false
  end.
Proof.
  revert s. induction p as [|a p IH]; intros s; simpl; [done|].
  destruct s as [|b s]; [done|].
  destruct (a =? b); simpl; [apply IH | done].
Qed.

Lemma match_link_here_spec (s : text) :
  match_link_here s =
  startswith (py "https://") s || startswith (py "http://") s.
Proof.
  unfold match_link_here.
  change (py "https://") with (py "http" ++ py "s://").
  change (py "http://") with (py "http" ++ py "://").
  rewrite !startswith_strip. by destruct (strip_prefix _ s).
Qed.

Lemma search_link_contains (s : text) :
  search_link s = contains (py "http://") s || contains (py "https://") s.
Proof.
  induction s as [|c s IH].
  - reflexivity.
  - cbn [search_link contains]. rewrite IH, match_link_here_spec.
    repeat match goal with |- context [startswith ?p ?t] =>
      destruct (startswith p t) end;
    repeat match goal with |- context [contains ?p ?t] =>
      destruct (contains p t) end; reflexivity.
Qed.

Lemma contains_head (c : N) (p s : text) :
  contains (c :: p) s = true -> c ∈ s.
Proof.
  rewrite contains_spec. intros [pre [post ->]].
  apply elem_of_app. right. by left.
Qed.

Lemma lstrip_split (s : text) :
  exists pre, s = pre ++ ChatParser.lstrip s /\ Forall (fun c => isspace c = true) pre.
Proof.
  induction s as [|c s [pre [IH Hpre]]]; [by exists []|].
  cbn [ChatParser.lstrip]. destruct (isspace c) eqn:Hc.
  - exists (c :: pre). split; [by rewrite IH at 1 | by constructor].
  - by exists [].
Qed.

(** What [strip] removes, on either side, is white space. *)
Lemma strip_split (s : text) :
  exists pre post,
    s = pre ++ ChatParser.strip s ++ post /\
    Forall (fun c => isspace c = true) pre /\
    Forall (fun c => isspace c = true) post.
Proof.
  destruct (lstrip_split s) as [pre [Hs Hpre]].
  destruct (lstrip_split (rev (ChatParser.lstrip s))) as [erp [Ht Herp]].
  exists pre, (rev erp). repeat split; [|done|by apply Forall_rev].
  unfold ChatParser.strip. rewrite <- rev_app_distr, <- Ht, rev_involutive.
  exact Hs.
Qed.

(** ** Facts about the parser *)

Import ChatParser.

Section Assembling.

Variable cfg : Config.

Lemma open_record_eta (o : OpenRecord) :
  mkOpen (o_timestamp o) (o_sender o) (o_body o) = o.
Proof. by destruct o. Qed.

Lemma is_header_decode (l : text) :
  is_header cfg l = match decode_header cfg l with Some _ => true | None => false end.
Proof. reflexivity. Qed.

(** The assembler, run from any state, emits what it had emitted, then
    the open record extended by the leading continuation lines, then
    one record per header. *)
Lemma run_flush (ls : list text) (st : Assembler) :
  flush (run cfg st ls) =
  emitted st ++
  match current st with
  | Some o => [finalize (mkOpen (o_timestamp o) (o_sender o)
                                (join_body (o_body o) (preamble cfg ls)))]
  | None => []
  end ++ records_of cfg ls.
Proof.
  revert st. induction ls as [|l ls IH]; intros st.
  - simpl. unfold flush. rewrite app_nil_r.
    destruct (current st) as [o|]; [by rewrite open_record_eta | done].
  - unfold run in *. cbn [fold_left preamble records_of].
    rewrite IH, is_header_decode. unfold feed.
    destruct (decode_header cfg l) as [h|].
    + cbn [current emitted]. unfold flush, join_body at 2. cbn [fold_left].
      destruct (current st) as [o|].
      * rewrite open_record_eta, <- !app_assoc. reflexivity.
      * rewrite <- !app_assoc. reflexivity.
    + destruct (current st) as [o|]; reflexivity.
Qed.

Lemma run_skipped (ls : list text) (st : Assembler) :
  skipped (run cfg st ls) =
  (skipped st + match current st with
                | Some _ => 0
                | None => length (preamble cfg ls)
                end)%nat.
Proof.
  revert st. induction ls as [|l ls IH]; intros st.
  - simpl. destruct (current st); lia.
  - unfold run in *. cbn [fold_left preamble].
    rewrite IH, is_header_decode. unfold feed.
    destruct (decode_header cfg l) as [h|].
    + cbn [current skipped]. destruct (current st); simpl; lia.
    + destruct (current st) as [o|]; simpl; lia.
Qed.

(** The fold over the lines computes the records of the invariant and
    counts the preamble. *)
Lemma parse_records (txt : text) :
  parse cfg txt =
  (records_of cfg (lines txt), length (preamble cfg (lines txt))).
Proof.
  unfold parse. by rewrite run_flush, run_skipped.
Qed.

Lemma run_fell_through (ls : list text) (st : Assembler) :
  fell_through (run cfg st ls) =
  (fell_through st
   + length (List.filter (fun l => negb (is_header cfg l)) ls))%nat.
Proof.
  revert st. induction ls as [|l ls IH]; intros st.
  - simpl. lia.
  - unfold run in *. cbn [fold_left List.filter].
    rewrite IH, is_header_decode. unfold feed.
    destruct (decode_header cfg l) as [h|]; cbn [negb].
    + reflexivity.
    + destruct (current st) as [o|]; cbn [fell_through length]; lia.
Qed.

Lemma records_of_length (ls : list text) :
  length (records_of cfg ls) = length (List.filter (is_header cfg) ls).
Proof.
  induction ls as [|l ls IH]; [done|].
  cbn [records_of List.filter]. rewrite is_header_decode.
  destruct (decode_header cfg l); simpl; by rewrite IH.
Qed.

Lemma preamble_length (ls : list text) :
  (length (preamble cfg ls) + length (List.filter (is_header cfg) ls)
   <= length ls)%nat.
Proof.
  induction ls as [|l ls IH]; [done|].
  cbn [preamble List.filter]. destruct (is_header cfg l); simpl.
  - pose proof (filter_length_le (is_header cfg) ls) as H. lia.
  - lia.
Qed.

(** Every line of the input is a header, which gives one record, or
    fell through all the grammars, which the audit counts. *)
Lemma audit_lines (txt : text) :
  (audit cfg txt + length (fst (parse cfg txt)) = length (lines txt))%nat.
Proof.
  unfold audit. rewrite run_fell_through, parse_records. cbn [fst initial fell_through].
  rewrite records_of_length. induction (lines txt) as [|l ls IH]; [done|].
  cbn [List.filter]. destruct (is_header cfg l); cbn [negb length]; lia.
Qed.

End Assembling.

(** Lines that are no headers are folded into the open record, one by
    one, and counted for the audit. *)
Lemma run_continuations (cfg : Config) (conts : list text) (o : OpenRecord)
      (done : list ChatRecord) (sk n : nat) :
  forallb (fun c => negb (is_header cfg c)) conts = true ->
  run cfg (mkAssembler (Some o) done sk n) conts =
  mkAssembler
    (Some (mkOpen (o_timestamp o) (o_sender o) (join_body (o_body o) conts)))
    done sk (n + length conts).
Proof.
  revert o n. induction conts as [|c conts IH]; intros o n Hc.
  - cbn [run fold_left join_body length]. destruct o. by rewrite Nat.add_0_r.
  - cbn [forallb] in Hc. apply andb_true_iff in Hc as [Hc1 Hc2].
    unfold run in *. cbn [fold_left join_body]. unfold feed at 2.
    rewrite is_header_decode in Hc1.
    destruct (decode_header cfg c); [done|].
    cbn [current o_timestamp o_sender o_body emitted skipped fell_through].
    rewrite (IH _ _ Hc2). cbn [o_timestamp o_sender o_body length].
    by rewrite Nat.add_succ_r.
Qed.

(** A header followed by continuation lines gives one record, whose
    body is the text of the header and those lines joined by line
    feeds, in order. *)
Lemma header_with_continuations (cfg : Config) (l : text) (conts : list text)
      (h : HeaderMatch) :
  decode_header cfg l = Some h ->
  forallb (fun c => negb (is_header cfg c)) conts = true ->
  run cfg initial (l :: conts) =
  mkAssembler
    (Some (mkOpen (h_timestamp h) (default system_sender (h_sender h))
                  (join_body (h_rest h) conts)))
    [] 0 (length conts).
Proof.
  intros Hl Hc. unfold run. cbn [fold_left]. unfold feed at 2. rewrite Hl.
  unfold flush, open_record.
  cbn [current emitted skipped fell_through initial app].
  exact (run_continuations cfg conts
           (mkOpen (h_timestamp h) (default system_sender (h_sender h))
                   (h_rest h)) [] 0%nat 0%nat Hc).
Qed.

(** ** The claims *)

(** C1. The scenario of the specification, read month first, gives
    exactly two records: Alice at 2023-12-01 10:05 with the continuation
    line folded into the body behind a line feed, and Bob at 2023-12-01
    10:06, both of kind Text; no line is skipped. *)
Theorem scenario_records :
  parse month_first scenario =
  ([ mkRecord (mkDatetime 2023 12 1 10 5 0) (py "Alice")
              (py "Hello there" ++ LF :: py "nice to meet you") Text;
     mkRecord (mkDatetime 2023 12 1 10 6 0) (py "Bob") (py "Hi!") Text ],
   0%nat).
Proof. vm_compute. reflexivity. Qed.

(** ** Facts about the page *)

Lemma bind_M {A B} (m : M A) (f : A -> M B) (w : world) :
  (m ≫= f) w =
  match m w with
  | (Ok a, w') => f a w'
  | (Err e, w') => (Err e, w')
  end.
Proof. reflexivity. Qed.

(** One step of a computation in [M]: the outermost bind that is applied
    to a world is replaced by its definition. *)
Ltac step_bind :=
  match goal with
  | |- context [@mbind M M_bind ?A ?B ?f ?m ?w] =>
      rewrite (@bind_M A B m f w)
  end.

Ltac step_ret :=
  match goal with
  | |- context [@mret M M_ret ?A ?a ?w] =>
      change (@mret M M_ret A a w) with (@Ok A a, w)
  end.

Ltac run_M := repeat (first [step_bind | step_ret]; cbn [lift emit put_session]).

Lemma setitem_columns (c : string) (vals : list cell) (df df' : DataFrame) :
  setitem c vals df = Ok df' ->
  c ∈ columns df' /\ forall x, x ∈ columns df -> x ∈ columns df'.
Proof.
  unfold setitem. case_decide; [|done]. intros [= <-]. simpl.
  case_decide; split; auto; set_solver.
Qed.

Lemma setitem_error (c : string) (vals : list cell) (df : DataFrame) (e : exn) :
  setitem c vals df = Err e -> e = ValueError.
Proof. unfold setitem. case_decide; congruence. Qed.

Lemma read_all_ok (cs : list string) (df : DataFrame) :
  (forall c, c ∈ cs -> c ∈ columns df) ->
  exists data, read_all cs df = Ok data.
Proof.
  induction cs as [|c cs IH]; intros H; [by eexists|].
  cbn [read_all]. unfold getitem. rewrite decide_True by (apply H; left).
  destruct IH as [data ->]; [intros x Hx; apply H; by right|].
  by eexists.
Qed.

Lemma extends_refl (P : event -> Prop) (w : world) : extends_by P w w.
Proof. exists []. by rewrite app_nil_r. Qed.

Lemma extends_trans (P : event -> Prop) (w1 w2 w3 : world) :
  extends_by P w1 w2 -> extends_by P w2 w3 -> extends_by P w1 w3.
Proof.
  intros [e1 [H1 F1]] [e2 [H2 F2]]. exists (e1 ++ e2).
  split; [by rewrite H2, H1, app_assoc | by apply Forall_app].
Qed.

Lemma extends_log (P : event -> Prop) (ev : event) (w w' : world) :
  P ev -> extends_by P w w' -> extends_by P w (log ev w').
Proof.
  intros Hev Hw. apply (extends_trans P w w'); [done|].
  exists [ev]. split; [done | by constructor].
Qed.

Lemma extends_logs (P : event -> Prop) (evs : list event) (w w' : world) :
  Forall P evs -> extends_by P w w' -> extends_by P w (logs evs w').
Proof.
  revert w'. induction evs as [|ev evs IH]; intros w' Hevs Hw; [done|].
  apply Forall_cons in Hevs as [Hev Hevs]. cbn [logs fold_left].
  apply IH; [done|]. by apply extends_log.
Qed.

Lemma extends_store (P : event -> Prop) (k : string) (v : pyval) (w w' : world) :
  extends_by P w w' -> extends_by P w (store k v w').
Proof. intros [evs H]. by exists evs. Qed.

Lemma getitem_length (c : string) (df : DataFrame) (col : list cell) :
  getitem c df = Ok col -> length col = nrows df.
Proof.
  unfold getitem. case_decide; [|done]. intros [= <-]. apply length_fmap.
Qed.

Lemma read_all_lengths (cs : list string) (df : DataFrame)
      (data : list (list cell)) :
  read_all cs df = Ok data ->
  Forall (fun col => length col = nrows df) data.
Proof.
  revert data. induction cs as [|c cs IH]; intros data; cbn [read_all].
  - intros [= <-]. constructor.
  - destruct (getitem c df) as [col|e] eqn:Hc; [|done]. cbn.
    destruct (read_all cs df) as [more|e]; [|done]. cbn.
    intros [= <-]. constructor; [by eapply getitem_length | by apply IH].
Qed.

Lemma setitem_nrows (c : string) (vals : list cell) (df df' : DataFrame) :
  setitem c vals df = Ok df' -> nrows df' = nrows df.
Proof.
  unfold setitem. case_decide as Hlen; [|done]. intros [= <-].
  unfold nrows. cbn [rows]. rewrite length_zip_with. lia.
Qed.

Lemma logs_session (evs : list event) (w : world) :
  session (logs evs w) = session w.
Proof.
  revert w. induction evs as [|ev evs IH]; intros w; [done|].
  cbn [logs fold_left]. fold (logs evs (log ev w)). by rewrite IH.
Qed.

Lemma logs_trace (evs : list event) (w : world) :
  trace (logs evs w) = trace w ++ evs.
Proof.
  revert w. induction evs as [|ev evs IH]; intros w.
  - by rewrite app_nil_r.
  - cbn [logs fold_left]. fold (logs evs (log ev w)). rewrite IH.
    cbn [log trace]. by rewrite <- app_assoc.
Qed.

Section PageFacts.

Variable preprocess_chat : text -> result DataFrame.
Variable to_datetime : list cell -> list cell.
Variable derive : string -> list cell -> result (list cell).
Variable draw : string -> list (list cell) -> option exn.
Variable lower : text -> text.
Variable EMOJI_DATA : text -> bool.

(** What loading does, case by case on the parser result. *)
Lemma load_chat_cases (raw : list byte) (w : world) (txt : text)
      (df0 : DataFrame) :
  utf8_decode raw = Some txt ->
  preprocess_chat txt = Ok df0 ->
  load_chat preprocess_chat to_datetime raw w =
  if decide ("date" ∈ columns df0)
  then if decide (length (to_datetime (at_col "date" <$> rows df0))
                  = length (rows df0))
       then (Ok (cleaned to_datetime df0),
             store "chat_df" (PyFrame (cleaned to_datetime df0))
                   (log (EvParse txt) w))
       else (Err ValueError, log (EvParse txt) w)
  else (Err (KeyError "date"), log (EvParse txt) w).
Proof.
  intros Hd Hp. unfold load_chat. rewrite Hd.
  run_M. rewrite Hp. run_M. unfold getitem.
  case_decide as Hin; [|reflexivity].
  run_M. unfold setitem.
  case_decide as Hlen; [|reflexivity].
  run_M. unfold dropna. cbn [columns rows].
  destruct (decide ("date" ∈ columns df0)) as [?|?]; [|done].
  rewrite decide_True by done. run_M. reflexivity.
Qed.

Lemma total_words_error (col : list cell) (e : exn) :
  total_words_of col = Err e -> e = AttributeError.
Proof.
  induction col as [|v col IH]; [done|]. cbn [total_words_of].
  destruct v; cbn; try congruence.
  destruct (total_words_of col); cbn; [done|]. intros [= <-]. by apply IH.
Qed.

(** The statistics, case by case on the message column. *)
Lemma basic_statistics_cases (df : DataFrame) (w : world) :
  basic_statistics df w =
  let shown := logs [EvSubheader "Chat Preview"; EvDataframe (head 20 df);
                     EvSubheader "Basic Statistics"] w in
  if decide ("message" ∈ columns df)
  then let msgs := at_col "message" <$> rows df in
       match total_words_of msgs with
       | Ok n =>
           (Ok tt, logs [EvMetric "Messages" (nrows df);
                         EvMetric "Words" n;
                         EvMetric "Media Shared" (total_media_of msgs);
                         EvMetric "Links Shared" (total_links_of msgs)] shown)
       | Err e => (Err e, shown)
       end
  else (Err (KeyError "message"), shown).
Proof.
  unfold basic_statistics. run_M. unfold getitem.
  case_decide; [|reflexivity]. run_M.
  destruct (total_words_of _); run_M; reflexivity.
Qed.

Lemma button_press (k : string) (c : bool) (p : string) (w : world) :
  button k c p w = (Ok tt, press k c p w).
Proof. unfold button, press. run_M. destruct c; reflexivity. Qed.

(** The statements behind the statistics, with the worlds they pass. *)
Lemma analysis_unfold (inp : inputs) (df : DataFrame) (w : world) :
  analysis derive draw lower EMOJI_DATA inp df w =
  match basic_statistics df w with
  | (Ok _, w1) =>
      match run_steps derive draw lower EMOJI_DATA analysis_steps df
                      (after_buttons inp w1) with
      | (Ok _, w3) => (Ok tt, w3)
      | (Err e, w3) => (Err e, w3)
      end
  | (Err e, w1) => (Err e, w1)
  end.
Proof.
  unfold analysis. step_bind.
  destruct (basic_statistics df w) as [[[]|e] w1]; [|reflexivity].
  run_M. rewrite button_press. step_bind. rewrite button_press.
  step_bind. fold (after_buttons inp w1).
  destruct (run_steps _ _ _ _ _ _ _) as [[?|?] ?]; reflexivity.
Qed.

Lemma strings_of_error (col : list cell) (e : exn) :
  strings_of col = Err e -> e = TypeError.
Proof.
  revert e. induction col as [|v col IH]; intros e; cbn [strings_of]; [done|].
  destruct v; try (by intros [= <-]).
  destruct (strings_of col) as [ms|e']; cbn; [done|].
  intros [= <-]. by apply IH.
Qed.

(** What a chart does once its columns are read: it shows the emoji
    total or itself, or it raises, on a cell that is no string or in
    the plotting library. *)
Lemma draw_chart_cases (s : chart_step) (data : list (list cell)) (w : world) :
  exists evs,
    snd (draw_chart draw lower EMOJI_DATA s data w) = logs evs w /\
    Forall (chart_call s data) evs /\
    match fst (draw_chart draw lower EMOJI_DATA s data w) with
    | Ok _ => True
    | Err e => e = TypeError \/ draw (step_title s) data = Some e
    end.
Proof.
  assert (Hshow : forall go evs,
            Forall (chart_call s data) evs ->
            exists evs',
              snd (show_chart draw (step_title s) data go (logs evs w))
              = logs evs' w /\
              Forall (chart_call s data) evs' /\
              match fst (show_chart draw (step_title s) data go (logs evs w)) with
              | Ok _ => True
              | Err e => e = TypeError \/ draw (step_title s) data = Some e
              end).
  { intros go evs Hevs. unfold show_chart. destruct go.
    - destruct (draw (step_title s) data) as [e|] eqn:Hd; cbn [lift emit fst snd].
      + exists evs. split; [done|]. split; [done|]. by right.
      + exists (evs ++ [EvChart (step_title s) data]).
        split; [unfold logs; by rewrite fold_left_app|].
        split; [|done]. apply Forall_app. split; [done|].
        constructor; [by left | constructor].
    - exists evs. by repeat split. }
  unfold draw_chart, passes. destruct (step_guard s).
  - step_bind. step_ret. apply (Hshow true []). constructor.
  - step_bind. step_bind. cbn [lift].
    destruct (strings_of (concat data)) as [msgs|e] eqn:Hs.
    + step_ret. apply (Hshow _ []). constructor.
    + exists []. split; [done|]. split; [constructor|]. cbn [fst]. left.
      by eapply strings_of_error.
  - step_bind. step_bind. cbn [lift].
    destruct (strings_of (concat data)) as [msgs|e] eqn:Hs.
    + step_bind. cbn [emit]. step_ret.
      apply (Hshow _ [EvWrite "Total Emojis Used: "
                        (length (all_emojis EMOJI_DATA msgs))]).
      constructor; [right; by eexists | constructor].
    + exists []. split; [done|]. split; [constructor|]. cbn [fst]. left.
      by eapply strings_of_error.
Qed.

(** A chart is drawn from the rows of the frame it is given, and the
    derived columns leave the number of rows as it is. *)
Lemma run_step_rows (s : chart_step) (df : DataFrame) (w : world) :
  extends_by (about_rows (nrows df)) w
             (snd (run_step derive draw lower EMOJI_DATA s df w)) /\
  match fst (run_step derive draw lower EMOJI_DATA s df w) with
  | Ok df' => nrows df' = nrows df
  | Err _ => True
  end.
Proof.
  assert (Htail : forall df' data w1,
            nrows df' = nrows df ->
            read_all (step_reads s) df' = Ok data ->
            extends_by (about_rows (nrows df)) w w1 ->
            extends_by (about_rows (nrows df)) w
              (snd (draw_chart draw lower EMOJI_DATA s data w1))).
  { intros df' data w1 Hn Hdata Hw1.
    apply read_all_lengths in Hdata. rewrite Hn in Hdata.
    destruct (draw_chart_cases s data w1) as (evs & -> & Hevs & _).
    apply extends_logs; [|done]. eapply Forall_impl; [exact Hevs|].
    intros ev [-> | [n ->]]; done. }
  unfold run_step. run_M.
  assert (Hw0 : extends_by (about_rows (nrows df)) w
                           (log (EvSubheader (step_title s)) w)).
  { apply extends_log; [exact I | apply extends_refl]. }
  destruct (step_assign s) as [[new src]|].
  - run_M. destruct (getitem src df) as [col|e]; run_M; [|done].
    destruct (derive new col) as [vals|e]; run_M; [|done].
    unfold set_shared. run_M.
    destruct (setitem new vals df) as [df'|e] eqn:Hset; run_M; [|done].
    apply setitem_nrows in Hset.
    destruct (read_all (step_reads s) df') as [data|e] eqn:Hdata; run_M.
    + match goal with |- context [draw_chart _ _ _ s data ?w1] =>
        pose proof (Htail df' data w1 Hset Hdata
                      ltac:(by apply extends_store)) as Ht;
        destruct (draw_chart draw lower EMOJI_DATA s data w1) as [[[]|e] w2]
      end; run_M; cbn [fst snd] in *; by split.
    + cbn [fst snd]. split; [by apply extends_store | done].
  - run_M.
    destruct (read_all (step_reads s) df) as [data|e] eqn:Hdata; run_M; [|done].
    match goal with |- context [draw_chart _ _ _ s data ?w1] =>
      pose proof (Htail df data w1 eq_refl Hdata Hw0) as Ht;
      destruct (draw_chart draw lower EMOJI_DATA s data w1) as [[[]|e] w2]
    end; run_M; cbn [fst snd] in *; by split.
Qed.

Lemma run_steps_rows (ss : list chart_step) (df : DataFrame) (w : world) :
  extends_by (about_rows (nrows df)) w
             (snd (run_steps derive draw lower EMOJI_DATA ss df w)).
Proof.
  revert df w. induction ss as [|s ss IH]; intros df w.
  - apply extends_refl.
  - cbn [run_steps]. step_bind.
    destruct (run_step_rows s df w) as [Hw Hn].
    destruct (run_step derive draw lower EMOJI_DATA s df w) as [[df'|e] w'];
      cbn [fst snd] in *.
    + apply (extends_trans _ w w'); [done|]. rewrite <- Hn. apply IH.
    + done.
Qed.

Lemma after_buttons_extends (P : event -> Prop) (inp : inputs) (w w1 : world) :
  (forall k, P (EvButton k)) -> (forall t, P (EvSubheader t)) ->
  extends_by P w w1 -> extends_by P w (after_buttons inp w1).
Proof.
  intros Hb Ht Hw1. unfold after_buttons, press.
  destruct (tox_btn inp), (sent_btn inp);
    repeat first [ apply extends_store | apply extends_log; [by auto|] ];
    exact Hw1.
Qed.

(** Whatever the statistics, the buttons and the charts show of the
    frame, they show of its rows. *)
Lemma analysis_rows (inp : inputs) (df : DataFrame) (w : world) :
  extends_by (about_rows (nrows df)) w
             (snd (analysis derive draw lower EMOJI_DATA inp df w)).
Proof.
  rewrite analysis_unfold, basic_statistics_cases. cbn zeta.
  assert (Hshown : extends_by (about_rows (nrows df)) w
            (logs [EvSubheader "Chat Preview"; EvDataframe (head 20 df);
                   EvSubheader "Basic Statistics"] w)).
  { apply extends_logs; [|apply extends_refl].
    repeat constructor.
    unfold about_rows, nrows, head. cbn [rows]. rewrite length_take. lia. }
  case_decide; [|done].
  destruct (total_words_of _) as [n|e]; [|done].
  match goal with |- context [after_buttons inp ?w1] =>
    assert (Hw1 : extends_by (about_rows (nrows df)) w (after_buttons inp w1));
    [ apply after_buttons_extends; [done | done |];
      apply extends_logs; [repeat constructor | exact Hshown]
    | pose proof (run_steps_rows analysis_steps df (after_buttons inp w1)) as Hr;
      destruct (run_steps derive draw lower EMOJI_DATA analysis_steps df
                          (after_buttons inp w1)) as [[df'|e] w3];
      cbn [snd] in *; by apply (extends_trans _ w (after_buttons inp w1)) ]
  end.
Qed.

Lemma run_step_numbers (s : chart_step) (df : DataFrame) (w w0 : world) :
  extends_by page_number w0 w ->
  extends_by page_number w0
             (snd (run_step derive draw lower EMOJI_DATA s df w)).
Proof.
  intros Hw.
  assert (Htail : forall data w1,
            extends_by page_number w0 w1 ->
            extends_by page_number w0
              (snd (draw_chart draw lower EMOJI_DATA s data w1))).
  { intros data w1 Hw1.
    destruct (draw_chart_cases s data w1) as (evs & -> & Hevs & _).
    apply extends_logs; [|done]. eapply Forall_impl; [exact Hevs|].
    intros ev [-> | [n ->]]; done. }
  unfold run_step. run_M.
  assert (Hw0 : extends_by page_number w0 (log (EvSubheader (step_title s)) w)).
  { by apply extends_log. }
  destruct (step_assign s) as [[new src]|].
  - run_M. destruct (getitem src df) as [col|e]; run_M; [|done].
    destruct (derive new col) as [vals|e]; run_M; [|done].
    unfold set_shared. run_M.
    destruct (setitem new vals df) as [df'|e]; run_M; [|done].
    destruct (read_all (step_reads s) df') as [data|e]; run_M;
      [|by apply extends_store].
    match goal with |- context [draw_chart _ _ _ s data ?w1] =>
      pose proof (Htail data w1 ltac:(by apply extends_store)) as Ht;
      destruct (draw_chart draw lower EMOJI_DATA s data w1) as [[[]|e] w2]
    end; run_M; exact Ht.
  - run_M.
    destruct (read_all (step_reads s) df) as [data|e]; run_M; [|done].
    match goal with |- context [draw_chart _ _ _ s data ?w1] =>
      pose proof (Htail data w1 Hw0) as Ht;
      destruct (draw_chart draw lower EMOJI_DATA s data w1) as [[[]|e] w2]
    end; run_M; exact Ht.
Qed.

Lemma run_steps_numbers (ss : list chart_step) (df : DataFrame) (w w0 : world) :
  extends_by page_number w0 w ->
  extends_by page_number w0
             (snd (run_steps derive draw lower EMOJI_DATA ss df w)).
Proof.
  revert df w. induction ss as [|s ss IH]; intros df w Hw; [done|].
  cbn [run_steps]. step_bind.
  pose proof (run_step_numbers s df w w0 Hw) as Hs.
  destruct (run_step derive draw lower EMOJI_DATA s df w) as [[df'|e] w'];
    cbn [snd] in *; [by apply IH | done].
Qed.

(** The numbers the statistics, the buttons and the charts show are the
    four statistics and the emoji total. *)
Lemma analysis_numbers (inp : inputs) (df : DataFrame) (w w0 : world) :
  extends_by page_number w0 w ->
  extends_by page_number w0
             (snd (analysis derive draw lower EMOJI_DATA inp df w)).
Proof.
  intros Hw. rewrite analysis_unfold, basic_statistics_cases. cbn zeta.
  assert (Hshown : extends_by page_number w0
            (logs [EvSubheader "Chat Preview"; EvDataframe (head 20 df);
                   EvSubheader "Basic Statistics"] w)).
  { apply extends_logs; [repeat constructor | done]. }
  case_decide; [|done].
  destruct (total_words_of _) as [n|e]; [|done].
  match goal with |- context [after_buttons inp ?w1] =>
    assert (Hw1 : extends_by page_number w0 (after_buttons inp w1));
    [ apply after_buttons_extends; [done | done |];
      apply extends_logs; [|exact Hshown];
      repeat constructor; cbn; set_solver
    | pose proof (run_steps_numbers analysis_steps df (after_buttons inp w1)
                    w0 Hw1) as Hr;
      destruct (run_steps derive draw lower EMOJI_DATA analysis_steps df
                          (after_buttons inp w1)) as [[df'|e] w3];
      cbn [snd] in *; exact Hr ]
  end.
Qed.

Lemma load_chat_numbers (raw : list byte) (w : world) :
  extends_by page_number w (snd (load_chat preprocess_chat to_datetime raw w)).
Proof.
  unfold load_chat.
  destruct (utf8_decode raw) as [t|]; run_M; [|apply extends_refl].
  assert (Hp : extends_by page_number w (log (EvParse t) w)).
  { apply extends_log; [exact I | apply extends_refl]. }
  destruct (preprocess_chat t) as [df|e]; run_M; [|done].
  destruct (getitem "date" df) as [dates|e]; run_M; [|done].
  destruct (setitem "date" (to_datetime dates) df) as [df1|e]; run_M; [|done].
  destruct (dropna "date" df1) as [df2|e]; run_M; [|done].
  by apply extends_store.
Qed.

(** Whatever the body of the [try] block shows, the only counts among
    it are the four statistics and the emoji total. *)
Lemma try_body_numbers (inp : inputs) (raw : list byte) (w : world) :
  extends_by page_number w
    (snd (try_body preprocess_chat to_datetime derive draw lower EMOJI_DATA
                   inp raw w)).
Proof.
  unfold try_body. step_bind.
  pose proof (load_chat_numbers raw w) as Hl.
  destruct (load_chat preprocess_chat to_datetime raw w) as [[df|e] w1];
    cbn [snd] in Hl; [|done].
  by apply analysis_numbers.
Qed.

Hypothesis derive_no_key : forall c col, no_key_error (derive c col).
Hypothesis draw_no_key : forall t d, no_key_error_raised (draw t d).

Lemma draw_chart_no_key (s : chart_step) (data : list (list cell)) (w : world) :
  no_key_error (fst (draw_chart draw lower EMOJI_DATA s data w)).
Proof.
  destruct (draw_chart_cases s data w) as (evs & _ & _ & Herr).
  destruct (fst (draw_chart draw lower EMOJI_DATA s data w)) as [[]|e]; [done|].
  destruct Herr as [-> | Hd]; [done|].
  pose proof (draw_no_key (step_title s) data) as Hk. rewrite Hd in Hk.
  by destruct e.
Qed.

Lemma run_steps_scoped (ss : list chart_step) (cols : list string)
      (df : DataFrame) (w : world) :
  (forall c, c ∈ cols -> c ∈ columns df) ->
  scoped cols ss = true ->
  no_key_error (fst (run_steps derive draw lower EMOJI_DATA ss df w)).
Proof.
  revert cols df w. induction ss as [|s ss IH]; intros cols df w Hcols Hsc.
  - exact I.
  - cbn [scoped] in Hsc. apply andb_true_iff in Hsc as [Hsc Hrest].
    apply andb_true_iff in Hsc as [Hsrc Hreads].
    rewrite forallb_forall in Hreads.
    cbn [run_steps]. step_bind. unfold run_step. run_M.
    destruct (step_assign s) as [[new src]|].
    + apply bool_decide_eq_true in Hsrc. run_M. unfold getitem.
      rewrite decide_True by auto. run_M.
      pose proof (derive_no_key new (at_col src <$> rows df)) as Hd.
      destruct (derive new _) as [vals|e]; run_M; [|by destruct e].
      unfold set_shared. run_M.
      destruct (setitem new vals df) as [df'|e] eqn:Hset; run_M.
      * apply setitem_columns in Hset as [Hnew Hold].
        assert (Hcols' : forall c, c ∈ new :: cols -> c ∈ columns df').
        { intros c [->|Hc]%elem_of_cons; auto. }
        destruct (read_all_ok (step_reads s) df') as [data ->].
        { intros c Hc. apply Hcols'.
          apply list_elem_of_In, Hreads in Hc.
          by apply bool_decide_eq_true in Hc. }
        run_M.
        match goal with |- context [draw_chart _ _ _ s data ?w1] =>
          pose proof (draw_chart_no_key s data w1) as Hdr;
          destruct (draw_chart draw lower EMOJI_DATA s data w1) as [[[]|e] w2]
        end; run_M; [|exact Hdr].
        by apply (IH (new :: cols)).
      * apply setitem_error in Hset as ->. exact I.
    + run_M.
      destruct (read_all_ok (step_reads s) df) as [data ->].
      { intros c Hc. apply Hcols.
        apply list_elem_of_In, Hreads in Hc.
        by apply bool_decide_eq_true in Hc. }
      run_M.
      match goal with |- context [draw_chart _ _ _ s data ?w1] =>
        pose proof (draw_chart_no_key s data w1) as Hdr;
        destruct (draw_chart draw lower EMOJI_DATA s data w1) as [[[]|e] w2]
      end; run_M; [|exact Hdr].
      by apply (IH cols).
Qed.

End PageFacts.






(** C4, as stated, fails on the statistics of the page: Media does not
    win. The page keeps no kind of a record, only the two tallies of
    lines 45 and 46, and takes each on its own: a body that holds the
    placeholder and a link is counted under Media Shared and under
    Links Shared alike. *)
Lemma media_does_not_win :
  let b := py "<Media omitted> https://example.com" in
  contains_media (CStr b) = true /\
  contains_link (CStr b) = true /\
  total_media_of [CStr b] = 1%nat /\
  total_links_of [CStr b] = 1%nat.
Proof. repeat split; reflexivity. Qed.

(** C4, amended. A record is counted under Links Shared exactly when
    its body holds a substring that starts with [http://] or
    [https://], whether or not it is counted as media as well: each
    cell enters the link tally by the link test alone, and a link body
    with the placeholder in front of it is in both tallies. The test
    reads the whole assembled body, so a link on a continuation line is
    counted. *)
Theorem links_counted_beside_media (b : text) (v : cell) (col : list cell) :
  (contains_link (CStr b) = true <->
   exists pre post, b = pre ++ py "http://" ++ post \/
                    b = pre ++ py "https://" ++ post) /\
  contains_link (CStr (py "see https://example.com")) = true /\
  total_links_of [] = 0%nat /\
  total_links_of (v :: col) =
    ((if contains_link v then 1 else 0) + total_links_of col)%nat /\
  (contains_link (CStr b) = true ->
   contains_link (CStr (media_placeholder ++ b)) = true /\
   contains_media (CStr (media_placeholder ++ b)) = true /\
   total_media_of [CStr (media_placeholder ++ b)] = 1%nat /\
   total_links_of [CStr (media_placeholder ++ b)] = 1%nat) /\
  (forall line, contains_link (CStr line) = true ->
                contains_link (CStr (b ++ LF :: line)) = true).
Proof.
  assert (Hiff : forall x, search_link x = true <->
            exists pre post, x = pre ++ py "http://" ++ post \/
                             x = pre ++ py "https://" ++ post).
  { intros x. rewrite search_link_contains, orb_true_iff, !contains_spec. split.
    - intros [[pre [post H]] | [pre [post H]]]; exists pre, post; auto.
    - intros [pre [post [H | H]]]; [left | right]; by exists pre, post. }
  assert (Hfront : forall x, search_link x = true ->
            search_link (media_placeholder ++ x) = true).
  { intros x. rewrite !search_link_contains, !orb_true_iff.
    intros [H | H]; [left | right]; apply contains_app; by right. }
  assert (Hmedia : contains media_placeholder (media_placeholder ++ b) = true).
  { apply contains_spec. by exists [], b. }
  cbn [contains_link].
  split; [apply Hiff|]. split; [reflexivity|]. split; [reflexivity|].
  split; [|split].
  - unfold total_links_of. cbn [List.filter].
    by destruct (contains_link v).
  - intros Hb. apply Hfront in Hb.
    unfold total_media_of, total_links_of.
    cbn [List.filter contains_media contains_link].
    change (py "<Media omitted>") with media_placeholder.
    by rewrite Hb, Hmedia.
  - intros line. rewrite !search_link_contains, !orb_true_iff.
    intros [H | H]; [left | right];
      apply contains_app; right;
      cbn [contains]; rewrite H; apply orb_true_r.
Qed.





Lemma first_match_grammar (o : DateOrder) (gs : list Grammar) (l : text)
      (h : HeaderMatch) :
  first_match o gs l = Some h ->
  exists g, g ∈ gs /\ decode_with o g l = Some h.
Proof.
  induction gs as [|g gs IH]; [done|]. cbn [first_match].
  destruct (decode_with o g l) as [h'|] eqn:Hg.
  - intros [= ->]. exists g. split; [by left | done].
  - intros [g' [Hin Hg']]%IH. exists g'. split; [by right | done].
Qed.

(** Every record carries the timestamp that some grammar, reading the
    date fields in the configured order, decoded from a line of the
    input. *)
Lemma records_of_timestamps (cfg : Config) (ls : list text) :
  Forall (fun r => exists l g h,
            l ∈ ls /\ decode_with (date_order cfg) g l = Some h /\
            timestamp r = h_timestamp h)
         (records_of cfg ls).
Proof.
  induction ls as [|l ls IH]; [constructor|].
  cbn [records_of].
  assert (Hrest : Forall (fun r => exists l0 g h,
            l0 ∈ l :: ls /\ decode_with (date_order cfg) g l0 = Some h /\
            timestamp r = h_timestamp h) (records_of cfg ls)).
  { eapply Forall_impl; [exact IH|].
    intros r [l0 [g [h [Hin H]]]]. exists l0, g, h. split; [by right | done]. }
  destruct (decode_header cfg l) as [h|] eqn:Hh; [|done].
  constructor; [|done].
  apply first_match_grammar in Hh as [g [_ Hg]].
  exists l, g, h. split; [by left | done].
Qed.

(** Read in the other order, a date has its day and its month swapped:
    the two configurations agree only when day and month are equal. *)
Lemma decode_date_swapped (s r : text) (y m d : N) :
  decode_date DayFirst s = Some (y, m, d, r) ->
  forall y' m' d' r',
    decode_date MonthFirst s = Some (y', m', d', r') ->
    y' = y /\ m' = d /\ d' = m /\ r' = r.
Proof.
  unfold decode_date. intros H1 y' m' d' r' H2.
  destruct (read_field 1 2 s) as [[[a wa] s1]|]; [|discriminate H1].
  cbn [mbind option_bind] in H1, H2.
  destruct (expect "/" s1) as [s2|]; [|discriminate H1].
  cbn [mbind option_bind] in H1, H2.
  destruct (read_field 1 2 s2) as [[[b wb] s3]|]; [|discriminate H1].
  cbn [mbind option_bind] in H1, H2.
  destruct (expect "/" s3) as [s4|]; [|discriminate H1].
  cbn [mbind option_bind] in H1, H2.
  destruct (read_field 2 4 s4) as [[[yy wy] s5]|]; [|discriminate H1].
  cbn [mbind option_bind] in H1, H2.
  destruct (guard (wy ≠ 3%nat)) as [Hw|]; [|discriminate H1].
  cbn [mbind option_bind] in H1, H2.
  destruct (valid_date _ b a); [|discriminate H1].
  destruct (valid_date _ a b); [|discriminate H2].
  injection H1 as <- <- <- <-. by injection H2 as <- <- <- <-.
Qed.


(** C9. When the session flag [admin_logged_in] is absent or not true,
    a run of the page shows the warning and returns at once: the
    session is left as it was, and neither the file uploader nor the
    parser appears among the calls of the run. *)
Theorem gate_without_login
    (parser : text -> result DataFrame) (td : list cell -> list cell)
    (dv : string -> list cell -> result (list cell))
    (dr : string -> list (list cell) -> option exn)
    (lo : text -> text) (em : text -> bool) (sp : string -> option exn)
    (inp : inputs) (w : world) :
  admin_logged_in w = Ok false ->
  whatsapp_chat_analyzer parser td dv dr lo em sp inp w =
  (Returned, log (EvWarning login_warning) w) /\
  session (snd (whatsapp_chat_analyzer parser td dv dr lo em sp inp w)) = session w /\
  (forall ev, ev ∈ trace (snd (whatsapp_chat_analyzer parser td dv dr lo em sp inp w)) ->
              ev ∈ trace w \/ ev = EvWarning login_warning).
Proof.
  intros Hflag. unfold whatsapp_chat_analyzer.
  unfold admin_logged_in in Hflag. rewrite Hflag.
  split; [reflexivity|]. split; [reflexivity|].
  cbn [snd log trace]. intros ev [Hin | Hin]%elem_of_app; [by left|].
  right. apply elem_of_cons in Hin as [-> | Hin]; [done|].
  by apply elem_of_nil in Hin.
Qed.

(** The theorem of C9 at an empty session. *)
Lemma gate_without_login_witness :
  whatsapp_chat_analyzer (fun _ => Ok two_rows) coerce_times derive_same
                         draw_fine lower_plain
      grinning_only page_not_found (upload "hi") logged_out =
  (Returned, log (EvWarning login_warning) logged_out) /\
  session (snd (whatsapp_chat_analyzer (fun _ => Ok two_rows) coerce_times
                  derive_same draw_fine lower_plain
      grinning_only page_not_found (upload "hi") logged_out))
  = session logged_out /\
  (forall ev,
     ev ∈ trace (snd (whatsapp_chat_analyzer (fun _ => Ok two_rows)
                        coerce_times derive_same draw_fine lower_plain
      grinning_only page_not_found (upload "hi")
                        logged_out)) ->
     ev ∈ trace logged_out \/ ev = EvWarning login_warning).
Proof.
  apply (gate_without_login (fun _ => Ok two_rows) coerce_times derive_same
           draw_fine lower_plain
      grinning_only page_not_found (upload "hi") logged_out).
  reflexivity.
Defined.

Lemma at_col_insert (c : string) (v : cell) (r : gmap string cell) :
  at_col c (<[c := v]> r) = v.
Proof. unfold at_col. by rewrite lookup_insert_eq. Qed.

(** The rows that are kept are those whose coerced date is not missing,
    each with that date in its [date] cell. *)
Lemma cleaned_rows (td : list cell -> list cell) (df0 : DataFrame) :
  rows (cleaned td df0) =
  (fun p => <["date" := p.2]> p.1) <$>
  List.filter (fun p => negb (isna p.2))
              (zip (rows df0) (td (at_col "date" <$> rows df0))).
Proof.
  unfold cleaned. cbn [rows]. generalize (td (at_col "date" <$> rows df0)).
  induction (rows df0) as [|r rs IH]; intros vs; [done|].
  destruct vs as [|v vs]; [done|].
  cbn [zip_with List.filter fst snd]. rewrite at_col_insert.
  destruct (isna v); cbn [negb fmap list_fmap]; by rewrite IH.
Qed.

Lemma cleaned_dates_present (td : list cell -> list cell) (df0 : DataFrame) :
  Forall (fun r => isna (at_col "date" r) = false) (rows (cleaned td df0)).
Proof.
  apply Forall_forall. intros r Hr. apply list_elem_of_In in Hr.
  unfold cleaned in Hr. cbn [rows] in Hr. apply filter_In in Hr as [_ Hr].
  by apply negb_true_iff.
Qed.

(** C10. After the parse call the dates are coerced and every row whose
    date came out missing is left out, before the frame is stored for
    the other pages and before any statistic is computed: the stored
    frame, the four statistics and the charts cover the kept rows only,
    and the run shows no warning and no count of the rows that were
    left out. *)
Theorem unreadable_dates_dropped
    (parser : text -> result DataFrame) (td : list cell -> list cell)
    (raw : list byte) (w : world) (txt : text) (df0 : DataFrame) (n : nat) :
  utf8_decode raw = Some txt ->
  parser txt = Ok df0 ->
  "date" ∈ columns df0 ->
  "message" ∈ columns df0 ->
  length (td (at_col "date" <$> rows df0)) = length (rows df0) ->
  total_words_of (at_col "message" <$> rows (cleaned td df0)) = Ok n ->
  let kept := cleaned td df0 in
  let msgs := at_col "message" <$> rows kept in
  let w' := store "chat_df" (PyFrame kept) (log (EvParse txt) w) in
  load_chat parser td raw w = (Ok kept, w') /\
  rows kept =
    ((fun p => <["date" := p.2]> p.1) <$>
     List.filter (fun p => negb (isna p.2))
                 (zip (rows df0) (td (at_col "date" <$> rows df0)))) /\
  Forall (fun r => isna (at_col "date" r) = false) (rows kept) /\
  (forall dv dr lo em inp,
     try_body parser td dv dr lo em inp raw w = analysis dv dr lo em inp kept w' /\
     extends_by (about_rows (nrows kept)) w'
                (snd (analysis dv dr lo em inp kept w'))) /\
  basic_statistics kept w' =
  (Ok tt,
   logs [ EvSubheader "Chat Preview"; EvDataframe (head 20 kept);
          EvSubheader "Basic Statistics";
          EvMetric "Messages" (nrows kept);
          EvMetric "Words" n;
          EvMetric "Media Shared" (total_media_of msgs);
          EvMetric "Links Shared" (total_links_of msgs) ] w').
Proof.
  intros Hraw Hparse Hdate Hmsg Hlen Hwords kept msgs w'.
  assert (Hload : load_chat parser td raw w = (Ok kept, w')).
  { rewrite (load_chat_cases parser td raw w txt df0 Hraw Hparse).
    by rewrite !decide_True. }
  split; [|split; [|split; [|split]]].
  - exact Hload.
  - apply cleaned_rows.
  - apply cleaned_dates_present.
  - intros dv dr lo em inp. split; [|apply analysis_rows].
    unfold try_body. step_bind. by rewrite Hload.
  - rewrite basic_statistics_cases. cbn zeta.
    change (columns kept) with (columns df0). rewrite decide_True by done.
    fold msgs. unfold msgs, kept. rewrite Hwords. reflexivity.
Qed.

(** The theorem of C10 at a parser result whose second row has a date
    that is not a time: one row is kept, with its two words. *)
Lemma unreadable_dates_dropped_witness :
  let kept := cleaned coerce_times two_rows in
  let msgs := at_col "message" <$> rows kept in
  let w' := store "chat_df" (PyFrame kept) (log (EvParse (py "hi")) logged_in) in
  load_chat (fun _ => Ok two_rows) coerce_times (bytes_of "hi") logged_in
  = (Ok kept, w') /\
  rows kept =
    ((fun p => <["date" := p.2]> p.1) <$>
     List.filter (fun p => negb (isna p.2))
                 (zip (rows two_rows)
                      (coerce_times (at_col "date" <$> rows two_rows)))) /\
  Forall (fun r => isna (at_col "date" r) = false) (rows kept) /\
  (forall dv dr lo em inp,
     try_body (fun _ => Ok two_rows) coerce_times dv dr lo em inp (bytes_of "hi")
              logged_in
     = analysis dv dr lo em inp kept w' /\
     extends_by (about_rows (nrows kept)) w'
                (snd (analysis dv dr lo em inp kept w'))) /\
  basic_statistics kept w' =
  (Ok tt,
   logs [ EvSubheader "Chat Preview"; EvDataframe (head 20 kept);
          EvSubheader "Basic Statistics";
          EvMetric "Messages" (nrows kept);
          EvMetric "Words" 2%nat;
          EvMetric "Media Shared" (total_media_of msgs);
          EvMetric "Links Shared" (total_links_of msgs) ] w').
Proof.
  apply (unreadable_dates_dropped (fun _ => Ok two_rows) coerce_times
           (bytes_of "hi") logged_in (py "hi") two_rows 2%nat).
  - reflexivity.
  - reflexivity.
  - apply list_elem_of_In. simpl. tauto.
  - apply list_elem_of_In. simpl. tauto.
  - reflexivity.
  - vm_compute. reflexivity.
Defined.

(** ** Further properties of the page *)

(** *** Words *)

Lemma split_ws_concat (cur s : text) :
  concat (split_ws cur s) =
  rev cur ++ List.filter (fun c => negb (isspace c)) s.
Proof.
  revert cur. induction s as [|c s IH]; intros cur.
  - cbn [split_ws List.filter]. rewrite app_nil_r.
    destruct cur; [done|]. cbn [concat]. by rewrite app_nil_r.
  - cbn [split_ws List.filter]. destruct (isspace c); cbn [negb].
    + destruct cur as [|d cur].
      * by rewrite IH.
      * cbn [concat]. by rewrite IH.
    + rewrite IH. cbn [rev]. by rewrite <- app_assoc.
Qed.

Lemma split_ws_words (cur s : text) :
  Forall (fun c => isspace c = false) cur ->
  Forall (fun w => w <> [] /\ Forall (fun c => isspace c = false) w)
         (split_ws cur s).
Proof.
  revert cur. induction s as [|c s IH]; intros cur Hcur.
  - cbn [split_ws]. destruct cur as [|d cur]; constructor; [|constructor].
    split; [|by apply Forall_rev].
    intros H. apply (f_equal (@length N)) in H.
    rewrite length_rev in H. done.
  - cbn [split_ws]. destruct (isspace c) eqn:Hc.
    + destruct cur as [|d cur]; [by apply IH|].
      constructor; [|by apply IH].
      split; [|by apply Forall_rev].
      intros H. apply (f_equal (@length N)) in H.
      rewrite length_rev in H. done.
    + apply IH. by constructor.
Qed.

(** X1. [msg.split()] loses nothing but white space: the words, put
    together again, are the characters of the message that are not
    white space, in order; and every word is non-empty and free of
    white space. *)
Theorem split_keeps_all_but_space (s : text) :
  concat (split s) = List.filter (fun c => negb (isspace c)) s /\
  Forall (fun w => w <> [] /\ Forall (fun c => isspace c = false) w) (split s).
Proof.
  split.
  - apply (split_ws_concat [] s).
  - apply (split_ws_words [] s). constructor.
Qed.

Lemma split_ws_app_space (cur a b : text) (sp : N) :
  isspace sp = true ->
  split_ws cur (a ++ sp :: b) = split_ws cur a ++ split b.
Proof.
  intros Hsp. revert cur. induction a as [|c a IH]; intros cur.
  - cbn [app split_ws]. rewrite Hsp. by destruct cur.
  - cbn [app split_ws]. destruct (isspace c).
    + destruct cur; by rewrite IH.
    + apply IH.
Qed.

Lemma split_join_space (msgs : list text) :
  split (join (py " ") msgs) = flat_map split msgs.
Proof.
  induction msgs as [|m msgs IH]; [done|].
  cbn [join flat_map]. destruct msgs as [|m' msgs].
  - cbn [flat_map]. by rewrite app_nil_r.
  - rewrite <- IH. apply (split_ws_app_space [] m). reflexivity.
Qed.

Lemma total_words_strings (msgs : list text) :
  total_words_of (CStr <$> msgs) = Ok (length (flat_map split msgs)).
Proof.
  induction msgs as [|m msgs IH]; [done|].
  cbn [fmap list_fmap total_words_of count_words flat_map].
  change (list_fmap text cell CStr msgs) with (CStr <$> msgs).
  rewrite IH. cbn. by rewrite length_app.
Qed.

Lemma flat_map_filter_length {A B} (f : A -> list B) (p : A -> bool)
      (l : list A) :
  (length (flat_map f (List.filter p l)) <= length (flat_map f l))%nat.
Proof.
  induction l as [|x l IH]; [done|]. cbn [List.filter flat_map].
  destruct (p x); cbn [flat_map]; rewrite ?length_app; lia.
Qed.

(** X2. The words of the text handed to the word cloud are the words of
    the messages that neither start with [<Media] nor hold [http], one
    message after the other; there are never more of them than the
    Words statistic counts. *)
Theorem wordcloud_words (msgs : list text) :
  split (wordcloud_text msgs) = flat_map split (List.filter in_word_cloud msgs) /\
  exists n, total_words_of (CStr <$> msgs) = Ok n /\
            (length (split (wordcloud_text msgs)) <= n)%nat.
Proof.
  unfold wordcloud_text. rewrite split_join_space. split; [done|].
  eexists. split; [apply total_words_strings|].
  apply flat_map_filter_length.
Qed.

Lemma contains_shorter (p q s : text) :
  contains (p ++ q) s = true -> contains p s = true.
Proof.
  rewrite !contains_spec. intros [pre [post ->]].
  exists pre, (q ++ post). by rewrite <- app_assoc.
Qed.

(** X3. Both word charts leave out every message that the Links Shared
    statistic counts, and every message that starts with the media
    placeholder; the two charts apply the same test. A message that the
    Media Shared statistic counts can still give words to the charts,
    when the placeholder is not at its start. *)
Theorem word_charts_skip_links (msg : text) :
  in_common_words msg = in_word_cloud msg /\
  (contains_link (CStr msg) = true -> in_common_words msg = false) /\
  (startswith (py "<Media omitted>") msg = true ->
   in_common_words msg = false) /\
  (exists m, contains_media (CStr m) = true /\ in_common_words m = true).
Proof.
  unfold in_common_words, in_word_cloud. split; [apply andb_comm|].
  split; [|split].
  - cbn [contains_link]. rewrite search_link_contains, orb_true_iff.
    intros [H | H].
    + change (py "http://") with (py "http" ++ py "://") in H.
      apply contains_shorter in H. by rewrite H.
    + change (py "https://") with (py "http" ++ py "s://") in H.
      apply contains_shorter in H. by rewrite H.
  - intros H. apply startswith_spec in H as [t ->].
    change (py "<Media omitted>") with (py "<Media" ++ py " omitted>").
    assert (Hs : startswith (py "<Media")
                   ((py "<Media" ++ py " omitted>") ++ t) = true).
    { apply startswith_spec. exists (py " omitted>" ++ t).
      by rewrite <- app_assoc. }
    rewrite Hs. apply andb_false_r.
  - exists (py "photo <Media omitted>"). split; reflexivity.
Qed.

(** *** The most common words *)

Lemma tally_count_up (w w' : text) (c : list (text * nat)) :
  tally (count_up w c) w' =
  (tally c w' + if bool_decide (w = w') then 1 else 0)%nat.
Proof.
  induction c as [|[k n] c IH]; cbn [count_up tally].
  - repeat case_bool_decide; lia.
  - destruct (decide (k = w)) as [-> | Hk].
    + rewrite (bool_decide_true (w = w)) by done. cbn [tally].
      repeat case_bool_decide; lia.
    + rewrite (bool_decide_false (k = w)) by done. cbn [tally].
      rewrite IH. lia.
Qed.

Lemma count_up_keys (w k : text) (c : list (text * nat)) :
  k ∈ (fst <$> count_up w c) <-> k = w \/ k ∈ (fst <$> c).
Proof.
  induction c as [|[k' n] c IH]; cbn [count_up].
  - cbn. rewrite list_elem_of_singleton, elem_of_nil. tauto.
  - destruct (decide (k' = w)) as [-> | Hk].
    + rewrite bool_decide_true by done. cbn [fmap list_fmap fst].
      rewrite !elem_of_cons. tauto.
    + rewrite bool_decide_false by done. cbn [fmap list_fmap fst].
      rewrite !elem_of_cons. unfold fmap in IH. rewrite IH. tauto.
Qed.

Lemma count_up_NoDup (w : text) (c : list (text * nat)) :
  NoDup (fst <$> c) -> NoDup (fst <$> count_up w c).
Proof.
  induction c as [|[k n] c IH]; cbn [count_up]; intros Hc.
  - cbn. apply NoDup_singleton.
  - case_bool_decide as Hk; [exact Hc|].
    cbn [fmap list_fmap fst] in *. apply NoDup_cons in Hc as [Hk' Hc].
    apply NoDup_cons. split; [|by apply IH].
    intros Hin. apply count_up_keys in Hin as [-> | Hin]; done.
Qed.

Lemma count_up_positive (w : text) (c : list (text * nat)) :
  Forall (fun e => (1 <= snd e)%nat) c ->
  Forall (fun e => (1 <= snd e)%nat) (count_up w c).
Proof.
  induction c as [|[k n] c IH]; cbn [count_up]; intros Hc.
  - by constructor.
  - apply Forall_cons in Hc as [Hn Hc]. case_bool_decide.
    + constructor; [cbn; lia | done].
    + constructor; [done | by apply IH].
Qed.

Lemma tally_absent (w : text) (c : list (text * nat)) :
  w ∉ (fst <$> c) -> tally c w = 0%nat.
Proof.
  induction c as [|[k n] c IH]; [done|]. cbn [fmap list_fmap fst tally].
  rewrite not_elem_of_cons. intros [Hk Hc].
  rewrite bool_decide_false by done. by rewrite IH.
Qed.

Lemma tally_entry (w : text) (n : nat) (c : list (text * nat)) :
  NoDup (fst <$> c) -> (w, n) ∈ c -> tally c w = n.
Proof.
  induction c as [|[k m] c IH]; intros Hnd Hin.
  - by apply elem_of_nil in Hin.
  - cbn [fmap list_fmap fst] in Hnd. apply NoDup_cons in Hnd as [Hk Hnd].
    cbn [tally]. apply elem_of_cons in Hin as [[= <- <-] | Hin].
    + rewrite bool_decide_true by done. rewrite tally_absent by done. lia.
    + rewrite bool_decide_false.
      * by rewrite IH.
      * intros ->. apply Hk. apply list_elem_of_fmap. by exists (w, n).
Qed.

Lemma Counter_from (ws : list text) (c : list (text * nat)) :
  NoDup (fst <$> c) ->
  Forall (fun e => (1 <= snd e)%nat) c ->
  let c' := fold_left (fun c w => count_up w c) ws c in
  NoDup (fst <$> c') /\
  Forall (fun e => (1 <= snd e)%nat) c' /\
  forall w, tally c' w = (tally c w + occurrences w ws)%nat.
Proof.
  revert c. induction ws as [|x ws IH]; intros c Hnd Hpos; cbn zeta.
  - cbn. split; [done|]. split; [done|]. intros w. unfold occurrences. cbn. lia.
  - cbn [fold_left].
    destruct (IH (count_up x c)) as (H1 & H2 & H3);
      [by apply count_up_NoDup | by apply count_up_positive|].
    split; [done|]. split; [done|]. intros w. rewrite H3, tally_count_up.
    unfold occurrences. cbn [List.filter].
    case_bool_decide; cbn [length]; lia.
Qed.

(** A [Counter] has one entry for each word that occurs, with the
    number of its occurrences. *)
Lemma Counter_entries (ws : list text) :
  NoDup (fst <$> Counter ws) /\
  (forall w n, (w, n) ∈ Counter ws ->
               n = occurrences w ws /\ (1 <= n)%nat) /\
  (forall w, w ∈ ws -> (w, occurrences w ws) ∈ Counter ws).
Proof.
  destruct (Counter_from ws []) as (Hnd & Hpos & Htally);
    [constructor | constructor|].
  fold (Counter ws) in Hnd, Hpos, Htally.
  split; [done|]. split.
  - intros w n Hin. split.
    + rewrite <- (tally_entry w n (Counter ws) Hnd Hin). apply Htally.
    + rewrite Forall_forall in Hpos. apply (Hpos (w, n) Hin).
  - intros w Hw.
    destruct (decide (w ∈ (fst <$> Counter ws))) as [Hk | Hk].
    + apply list_elem_of_fmap in Hk as [[w' n] [-> Hin]]. cbn [fst].
      assert (Hn : n = occurrences w' ws).
      { rewrite <- (tally_entry w' n (Counter ws) Hnd Hin). apply Htally. }
      by rewrite <- Hn.
    + apply tally_absent in Hk. rewrite Htally in Hk. cbn [tally] in Hk.
      unfold occurrences in Hk.
      assert (Hin : w ∈ List.filter (fun x => bool_decide (x = w)) ws).
      { apply list_elem_of_In, filter_In. split; [by apply list_elem_of_In|].
        by apply bool_decide_eq_true. }
      destruct (List.filter _ ws); [by apply elem_of_nil in Hin | done].
Qed.

Lemma insert_by_count_perm (x : text * nat) (l : list (text * nat)) :
  insert_by_count x l ≡ₚ x :: l.
Proof.
  induction l as [|y l IH]; [done|]. cbn [insert_by_count].
  destruct (snd y <=? snd x)%nat; [done|].
  rewrite IH. apply Permutation_swap.
Qed.

Lemma sort_by_count_perm (c : list (text * nat)) :
  fold_right insert_by_count [] c ≡ₚ c.
Proof.
  induction c as [|x c IH]; [done|]. cbn [fold_right].
  by rewrite insert_by_count_perm, IH.
Qed.

Lemma insert_by_count_sorted (x : text * nat) (l : list (text * nat)) :
  StronglySorted by_count l -> StronglySorted by_count (insert_by_count x l).
Proof.
  induction l as [|y l IH]; intros Hl; cbn [insert_by_count].
  - repeat constructor.
  - apply StronglySorted_inv in Hl as [Hl Hy].
    destruct (snd y <=? snd x)%nat eqn:Hxy.
    + apply Nat.leb_le in Hxy. constructor; [by constructor|].
      constructor; [exact Hxy|].
      eapply Forall_impl; [exact Hy|]. unfold by_count. intros z Hz. lia.
    + apply Nat.leb_gt in Hxy. constructor; [by apply IH|].
      rewrite insert_by_count_perm. constructor; [|done].
      unfold by_count. lia.
Qed.

Lemma sort_by_count_sorted (c : list (text * nat)) :
  StronglySorted by_count (fold_right insert_by_count [] c).
Proof.
  induction c as [|x c IH]; [constructor|]. cbn [fold_right].
  by apply insert_by_count_sorted.
Qed.

Lemma occurrences_elem (w : text) (ws : list text) :
  (1 <= occurrences w ws)%nat -> w ∈ ws.
Proof.
  unfold occurrences. induction ws as [|x ws IH]; cbn [List.filter length].
  - lia.
  - case_bool_decide as Hx; [subst x; intros _; by left|].
    intros H. right. by apply IH.
Qed.

(** X4. The list behind the Most Common Words chart has at most 15
    entries, one per word, by falling count; every entry is a word of a
    message that passed the test of line 110, is no stop word, and
    carries the number of its occurrences among the words kept; and a
    word that is left out occurs no more often than any word shown. *)
Theorem common_words_top (lower : text -> text) (msgs : list text) :
  let ws := List.filter not_stop (words_of lower msgs) in
  let top := common_words lower msgs in
  (length top <= 15)%nat /\
  StronglySorted by_count top /\
  NoDup (fst <$> top) /\
  Forall (fun e => snd e = occurrences (fst e) ws /\ (1 <= snd e)%nat /\
                   fst e ∈ words_of lower msgs /\ fst e ∉ stop) top /\
  (forall w, w ∈ ws ->
             w ∈ (fst <$> top) \/
             Forall (fun e => (occurrences w ws <= snd e)%nat) top).
Proof.
  intros ws top. unfold common_words, most_common in top. fold ws in top.
  set (sorted := fold_right insert_by_count [] (Counter ws)) in *.
  destruct (Counter_entries ws) as (Hnd & Hent & Hall).
  assert (Hperm : sorted ≡ₚ Counter ws) by apply sort_by_count_perm.
  assert (Hsorted : StronglySorted by_count sorted)
    by apply sort_by_count_sorted.
  assert (Hsplit : sorted = top ++ drop 15 sorted)
    by (symmetry; apply take_drop).
  assert (Hsub : forall e, e ∈ top -> e ∈ Counter ws).
  { intros e He. rewrite <- Hperm, Hsplit. apply elem_of_app. by left. }
  split; [unfold top; rewrite length_take; lia|]. split; [|split; [|split]].
  - rewrite Hsplit in Hsorted. by apply StronglySorted_app_1_l in Hsorted.
  - assert (Hk : NoDup (fst <$> sorted)) by by rewrite Hperm.
    rewrite Hsplit, fmap_app in Hk. by apply NoDup_app in Hk as [Hk _].
  - apply Forall_forall. intros [w n] He. cbn [fst snd].
    destruct (Hent w n (Hsub _ He)) as [Hn Hpos].
    split; [done|]. split; [done|].
    assert (Hw : w ∈ ws) by (apply occurrences_elem; lia).
    apply list_elem_of_In, filter_In in Hw as [Hw Hstop].
    split; [by apply list_elem_of_In|].
    unfold not_stop in Hstop. apply negb_true_iff in Hstop.
    by apply bool_decide_eq_false in Hstop.
  - intros w Hw. pose proof (Hall w Hw) as Hin.
    rewrite <- Hperm, Hsplit in Hin. apply elem_of_app in Hin as [Hin | Hin].
    + left. apply list_elem_of_fmap. by exists (w, occurrences w ws).
    + right. apply Forall_forall. intros e He.
      rewrite Hsplit in Hsorted.
      by apply (StronglySorted_app_1_elem_of by_count top (drop 15 sorted) e
                  (w, occurrences w ws)) in Hsorted.
Qed.

(** *** The statistics *)

Lemma total_words_cases (col : list cell) :
  (exists msgs, col = CStr <$> msgs /\
                total_words_of col = Ok (length (flat_map split msgs))) \/
  (total_words_of col = Err AttributeError /\
   exists v, v ∈ col /\ forall s, v <> CStr s).
Proof.
  induction col as [|v col IH].
  - left. by exists [].
  - destruct v as [s| | | |];
      try (right; split; [reflexivity|]; eexists; split; [by left | done]).
    destruct IH as [[msgs [-> Hw]] | [Hw [v [Hv Hns]]]].
    + left. exists (s :: msgs). split; [done|].
      apply (total_words_strings (s :: msgs)).
    + right. split.
      * cbn [total_words_of count_words]. rewrite Hw. reflexivity.
      * exists v. split; [by right | done].
Qed.

(** X5. The statistics block ends in one of three ways. Without a
    [message] column it stops with [KeyError 'message']; with a cell in
    that column that is not a string it stops with [AttributeError];
    in both cases after the preview and before any number is shown.
    Otherwise it shows the four numbers: Messages is the number of
    rows, Words the number of words of all messages, and Media Shared
    and Links Shared never exceed Messages. *)
Theorem statistics_outcomes (df : DataFrame) (w : world) :
  let shown := logs [EvSubheader "Chat Preview"; EvDataframe (head 20 df);
                     EvSubheader "Basic Statistics"] w in
  let col := at_col "message" <$> rows df in
  (basic_statistics df w = (Err (KeyError "message"), shown) /\
   "message" ∉ columns df) \/
  (basic_statistics df w = (Err AttributeError, shown) /\
   "message" ∈ columns df /\ exists v, v ∈ col /\ forall s, v <> CStr s) \/
  (exists msgs,
     "message" ∈ columns df /\ col = CStr <$> msgs /\
     length msgs = nrows df /\
     basic_statistics df w =
     (Ok tt, logs [EvMetric "Messages" (length msgs);
                   EvMetric "Words" (length (flat_map split msgs));
                   EvMetric "Media Shared" (total_media_of col);
                   EvMetric "Links Shared" (total_links_of col)] shown) /\
     (total_media_of col <= length msgs)%nat /\
     (total_links_of col <= length msgs)%nat).
Proof.
  intros shown col. rewrite basic_statistics_cases. cbn zeta.
  fold shown. fold col. case_decide as Hm; [|by left].
  right. destruct (total_words_cases col) as [[msgs [Hcol Hw]] | [Hw Hv]].
  - right. exists msgs. rewrite Hw.
    assert (Hlen : length msgs = nrows df).
    { unfold nrows. rewrite <- (length_fmap (at_col "message") (rows df)).
      fold col. by rewrite Hcol, length_fmap. }
    split; [done|]. split; [done|]. split; [done|].
    split; [by rewrite Hlen|].
    rewrite <- (length_fmap CStr msgs), <- Hcol.
    split; apply filter_length_le.
  - left. by rewrite Hw.
Qed.

(** *** Decoding *)

Lemma land_low (b : N) (k : N) : N.land b (N.ones k) = b mod 2 ^ k.
Proof. apply N.land_ones. Qed.

Lemma mod_range (b m lo : N) :
  m <> 0 -> lo mod m = 0 -> lo <= b -> b < lo + m -> b mod m = b - lo.
Proof.
  intros Hm Hlo H1 H2.
  assert (Hb : b = lo + (b - lo)) by lia.
  rewrite Hb at 1.
  rewrite <- (N.Div0.add_mod_idemp_l lo (b - lo) m), Hlo, N.add_0_l.
  apply N.mod_small. lia.
Qed.

Lemma low6_cont (b : N) : is_cont b = true -> low6 b = b - 128.
Proof.
  unfold is_cont, low6. intros [H1 H2]%andb_true_iff.
  apply N.leb_le in H1, H2. change 63 with (N.ones 6). rewrite land_low.
  apply mod_range; [done | reflexivity | lia | lia].
Qed.

Lemma low6_range (lo hi b : N) :
  128 <= lo -> hi <= 191 ->
  (lo <=? b) && (b <=? hi) = true ->
  low6 b = b - 128 /\ lo <= b /\ b <= hi.
Proof.
  intros Hlo Hhi [H1 H2]%andb_true_iff. apply N.leb_le in H1, H2.
  split; [|lia]. apply low6_cont. unfold is_cont.
  apply andb_true_iff. split; apply N.leb_le; lia.
Qed.

Lemma lead_bits (b lo : N) (k : N) :
  lo mod 2 ^ k = 0 -> lo <= b -> b < lo + 2 ^ k ->
  N.land b (N.ones k) = b - lo.
Proof.
  intros Hlo H1 H2. rewrite land_low.
  apply mod_range; [|done|done|done]. apply N.pow_nonzero. lia.
Qed.

Ltac bounds :=
  repeat match goal with
  | H : (_ && _) = true |- _ => apply andb_true_iff in H as [? ?]
  | H : (_ <=? _) = true |- _ => apply N.leb_le in H
  | H : (_ <? _) = true |- _ => apply N.ltb_lt in H
  | H : (_ <? _) = false |- _ => apply N.ltb_ge in H
  | H : (_ =? _) = true |- _ => apply N.eqb_eq in H
  | H : (_ =? _) = false |- _ => apply N.eqb_neq in H
  end.

Lemma utf8_decode_valid (bs : list byte) (t : text) :
  utf8_decode bs = Some t ->
  Forall is_scalar t /\
  (length t <= length bs)%nat /\ (length bs <= 4 * length t)%nat.
Proof.
  remember (length bs) as n eqn:Hn. revert bs t Hn.
  induction n as [n IH] using lt_wf_ind. intros bs t Hn.
  destruct bs as [|x0 r0].
  { intros [= <-]. subst n. split; [constructor | cbn; lia]. }
  cbn [utf8_decode]. set (b0 := Byte.to_N x0).
  cbn [length] in Hn.
  destruct (b0 <? 128) eqn:H0.
  { destruct (utf8_decode r0) as [t0|] eqn:Hr; [|done]. intros [= <-].
    destruct (IH (length r0) ltac:(lia) r0 t0 eq_refl Hr) as (Hs & Hl1 & Hl2).
    bounds. split; [|cbn [length]; lia].
    constructor; [|done]. unfold is_scalar. lia. }
  destruct ((194 <=? b0) && (b0 <=? 223)) eqn:H2.
  { destruct r0 as [|x1 r1]; [done|]. set (b1 := Byte.to_N x1).
    destruct (is_cont b1) eqn:Hc1; [|done].
    destruct (utf8_decode r1) as [t0|] eqn:Hr; [|done]. intros [= <-].
    cbn [length] in Hn.
    destruct (IH (length r1) ltac:(lia) r1 t0 eq_refl Hr) as (Hs & Hl1 & Hl2).
    rewrite (low6_cont b1 Hc1). unfold is_cont in Hc1. bounds.
    split; [|cbn [length]; lia]. constructor; [|done].
    change 31 with (N.ones 5).
    rewrite (lead_bits b0 192 5) by (try reflexivity; cbn; lia).
    rewrite N.shiftl_mul_pow2. change (2 ^ 6) with 64.
    unfold is_scalar. lia. }
  destruct ((224 <=? b0) && (b0 <=? 239)) eqn:H3.
  { destruct r0 as [|x1 [|x2 r2]]; [done|done|].
    set (b1 := Byte.to_N x1). set (b2 := Byte.to_N x2).
    destruct ((_ <=? b1) && (b1 <=? _) && is_cont b2) eqn:Hc; [|done].
    destruct (utf8_decode r2) as [t0|] eqn:Hr; [|done]. intros [= <-].
    cbn [length] in Hn.
    destruct (IH (length r2) ltac:(lia) r2 t0 eq_refl Hr) as (Hs & Hl1 & Hl2).
    apply andb_true_iff in Hc as [Hc1 Hc2].
    rewrite (low6_cont b2 Hc2). unfold is_cont in Hc2.
    apply low6_range in Hc1 as (-> & Hlo & Hhi);
      [|destruct (b0 =? 224); lia | destruct (b0 =? 237); lia].
    bounds. split; [|cbn [length]; lia]. constructor; [|done].
    change 15 with (N.ones 4).
    rewrite (lead_bits b0 224 4) by (try reflexivity; cbn; lia).
    rewrite !N.shiftl_mul_pow2. change (2 ^ 12) with 4096.
    change (2 ^ 6) with 64. unfold is_scalar.
    destruct (N.eqb_spec b0 224), (N.eqb_spec b0 237); lia. }
  destruct ((240 <=? b0) && (b0 <=? 244)) eqn:H4; [|done].
  destruct r0 as [|x1 [|x2 [|x3 r3]]]; [done|done|done|].
  set (b1 := Byte.to_N x1). set (b2 := Byte.to_N x2). set (b3 := Byte.to_N x3).
  destruct ((_ <=? b1) && (b1 <=? _) && is_cont b2 && is_cont b3) eqn:Hc;
    [|done].
  destruct (utf8_decode r3) as [t0|] eqn:Hr; [|done]. intros [= <-].
  cbn [length] in Hn.
  destruct (IH (length r3) ltac:(lia) r3 t0 eq_refl Hr) as (Hs & Hl1 & Hl2).
  apply andb_true_iff in Hc as [Hc Hc3]. apply andb_true_iff in Hc as [Hc1 Hc2].
  rewrite (low6_cont b2 Hc2), (low6_cont b3 Hc3). unfold is_cont in Hc2, Hc3.
  apply low6_range in Hc1 as (-> & Hlo & Hhi);
    [|destruct (b0 =? 240); lia | destruct (b0 =? 244); lia].
  bounds. split; [|cbn [length]; lia]. constructor; [|done].
  change 7 with (N.ones 3).
  rewrite (lead_bits b0 240 3) by (try reflexivity; cbn; lia).
  rewrite !N.shiftl_mul_pow2. change (2 ^ 18) with 262144.
  change (2 ^ 12) with 4096. change (2 ^ 6) with 64. unfold is_scalar.
  destruct (N.eqb_spec b0 240), (N.eqb_spec b0 244); lia.
Qed.

(** X6. An upload of ASCII bytes always decodes, to the characters with
    the same numbers: a plain ASCII export never meets the decoding
    error. *)
Theorem ascii_upload_decodes (bs : list byte) :
  Forall (fun b => Byte.to_N b < 128) bs ->
  utf8_decode bs = Some (Byte.to_N <$> bs).
Proof.
  induction bs as [|b bs IH]; intros Hbs; [done|].
  apply Forall_cons in Hbs as [Hb Hbs]. cbn [utf8_decode].
  apply N.ltb_lt in Hb. rewrite Hb, (IH Hbs). reflexivity.
Qed.

Lemma ascii_upload_decodes_witness :
  utf8_decode (bytes_of "10:05 - Hi!") = Some (Byte.to_N <$> bytes_of "10:05 - Hi!").
Proof.
  apply (ascii_upload_decodes (bytes_of "10:05 - Hi!")).
  repeat constructor.
Defined.

(** X7. Whatever the upload, the text that reaches the parser is made
    of Unicode scalar values (no surrogate, nothing above U+10FFFF); it
    has at most as many characters as the file has bytes, and at least
    a quarter as many. *)
Theorem decoded_text_is_unicode (bs : list byte) (t : text) :
  utf8_decode bs = Some t ->
  Forall is_scalar t /\
  (length t <= length bs)%nat /\ (length bs <= 4 * length t)%nat.
Proof. apply utf8_decode_valid. Qed.

Lemma decoded_text_is_unicode_witness :
  Forall is_scalar [8364; 33] /\
  (length [8364%N; 33%N] <= length [xe2; x82; xac; x21])%nat /\
  (length [xe2; x82; xac; x21] <= 4 * length [8364%N; 33%N])%nat.
Proof.
  apply (decoded_text_is_unicode [xe2; x82; xac; x21] [8364; 33]).
  reflexivity.
Defined.

(** *** Effects of a run *)

Lemma performs_refl (P : effect -> Prop) (w : world) : performs P w w.
Proof. by exists []. Qed.

Lemma performs_trans (P : effect -> Prop) (w1 w2 w3 : world) :
  performs P w1 w2 -> performs P w2 w3 -> performs P w1 w3.
Proof.
  intros [a1 [-> F1]] [a2 [-> F2]]. exists (a1 ++ a2).
  split; [by rewrite fold_left_app | by apply Forall_app].
Qed.

Lemma performs_one (P : effect -> Prop) (a : effect) (w w' : world) :
  P a -> performs P w w' -> performs P w (perform w' a).
Proof.
  intros Ha Hw. apply (performs_trans P w w'); [done|].
  exists [a]. split; [done | by constructor].
Qed.

Lemma performs_log (P : effect -> Prop) (ev : event) (w w' : world) :
  P (Logged ev) -> performs P w w' -> performs P w (log ev w').
Proof. apply (performs_one P (Logged ev)). Qed.

Lemma performs_store (P : effect -> Prop) (k : string) (v : pyval)
      (w w' : world) :
  P (Stored k v) -> performs P w w' -> performs P w (store k v w').
Proof. apply (performs_one P (Stored k v)). Qed.

Lemma performs_logs (P : effect -> Prop) (evs : list event) (w w' : world) :
  Forall (fun ev => P (Logged ev)) evs -> performs P w w' ->
  performs P w (logs evs w').
Proof.
  revert w'. induction evs as [|ev evs IH]; intros w' Hevs Hw; [done|].
  apply Forall_cons in Hevs as [Hev Hevs]. cbn [logs fold_left].
  apply IH; [done|]. by apply performs_log.
Qed.

Lemma performs_impl (P Q : effect -> Prop) (w w' : world) :
  (forall a, P a -> Q a) -> performs P w w' -> performs Q w w'.
Proof.
  intros HPQ [acts [-> F]]. exists acts. split; [done|].
  by eapply Forall_impl.
Qed.

(** The calls a run adds to the trace are the logged ones. *)
Lemma performs_trace (P : effect -> Prop) (w w' : world) :
  performs P w w' -> extends_by (fun ev => P (Logged ev)) w w'.
Proof.
  intros [acts [-> F]]. revert w.
  induction acts as [|a acts IH]; intros w; [apply extends_refl|].
  apply Forall_cons in F as [Ha F]. cbn [fold_left].
  apply (extends_trans _ w (perform w a)); [|by apply IH].
  destruct a as [ev | k v]; cbn [perform].
  - apply extends_log; [done | apply extends_refl].
  - apply extends_store, extends_refl.
Qed.

(** A session entry stays when every store under its key writes the
    value it has. *)
Lemma performs_keeps (P : effect -> Prop) (k : string) (w w' : world) :
  performs P w w' ->
  (forall v, P (Stored k v) -> session w !! k = Some v) ->
  session w' !! k = session w !! k.
Proof.
  intros [acts [-> F]]. revert w.
  induction acts as [|a acts IH]; intros w Hk; [done|].
  apply Forall_cons in F as [Ha F]. cbn [fold_left].
  assert (Hstep : session (perform w a) !! k = session w !! k).
  { destruct a as [ev | k' v]; cbn [perform log store session]; [done|].
    destruct (decide (k' = k)) as [-> | Hne].
    - rewrite lookup_insert_eq. symmetry. by apply Hk.
    - by rewrite lookup_insert_ne. }
  rewrite IH; [done | done|]. intros v Hv. rewrite Hstep. by apply Hk.
Qed.

Lemma at_col_insert_ne (c c' : string) (v : cell) (r : gmap string cell) :
  c <> c' -> at_col c' (<[c := v]> r) = at_col c' r.
Proof. intros Hne. unfold at_col. by rewrite lookup_insert_ne. Qed.

Lemma setitem_grows (c : string) (vals : list cell) (df df' : DataFrame) :
  setitem c vals df = Ok df' -> frame_grows [c] df df'.
Proof.
  intros Hset. split; [by eapply setitem_nrows|].
  split; [by apply (setitem_columns c vals df df')|].
  intros c' Hc'. apply not_elem_of_cons in Hc' as [Hne _].
  unfold setitem in Hset. case_decide as Hlen; [|done].
  injection Hset as <-. cbn [rows]. revert vals Hlen.
  induction (rows df) as [|r rs IH]; intros vals Hlen; [by destruct vals|].
  destruct vals as [|v vals]; [done|]. cbn [zip_with fmap list_fmap].
  rewrite at_col_insert_ne by done. f_equal. apply IH.
  cbn [length] in Hlen. lia.
Qed.

Lemma frame_grows_refl (news : list string) (df : DataFrame) :
  frame_grows news df df.
Proof. by repeat split. Qed.

Lemma frame_grows_trans (n1 n2 : list string) (a b c : DataFrame) :
  frame_grows n1 a b -> frame_grows n2 b c -> frame_grows (n1 ++ n2) a c.
Proof.
  intros (H1 & H2 & H3) (K1 & K2 & K3). split; [congruence|].
  split; [auto|]. intros x Hx. apply not_elem_of_app in Hx as [Hx1 Hx2].
  by rewrite K3, H3.
Qed.

Lemma redirect_destination (sp : string -> option exn) (w : world) :
  fst (redirect sp w) = destination sp (session w !! "go_to_page").
Proof.
  unfold redirect, leave, goes_to, destination, switched.
  destruct (session w !! "go_to_page") as [[| | |s|]|]; try reflexivity.
  destruct (bool_decide (s = py "sentiment")); [by destruct (sp _)|].
  destruct (bool_decide (s = py "toxicity")); [by destruct (sp _) | done].
Qed.

Lemma redirect_session (sp : string -> option exn) (w : world) :
  session (snd (redirect sp w)) = session w.
Proof.
  unfold redirect, leave.
  destruct (goes_to "sentiment" w) as [[|]|e]; [by destruct (sp _)| |done].
  destruct (goes_to "toxicity" w) as [[|]|e]; [by destruct (sp _)|done|done].
Qed.

(** The redirect logic shows nothing but the page switch, and that only
    when the run leaves. *)
Lemma redirect_trace (sp : string -> option exn) (w : world) :
  trace (snd (redirect sp w)) =
  trace w ++ match fst (redirect sp w) with
             | Switched p => [EvSwitchPage p]
             | _ => []
             end.
Proof.
  unfold redirect, leave.
  destruct (goes_to "sentiment" w) as [[|]|e];
    [destruct (sp _); cbn; by rewrite ?app_nil_r | | cbn; by rewrite app_nil_r].
  destruct (goes_to "toxicity" w) as [[|]|e];
    [destruct (sp _) |..]; cbn; by rewrite ?app_nil_r.
Qed.

Lemma press_session (k : string) (c : bool) (p : string) (w : world) (key : string) :
  key <> "go_to_page"%string -> key <> k ->
  session (press k c p w) !! key = session w !! key.
Proof.
  intros Hne Hk. unfold press. destruct c; cbn [store log session];
    rewrite ?lookup_insert_ne; done.
Qed.

Lemma after_buttons_page (inp : inputs) (w1 : world) :
  session (after_buttons inp w1) !! "go_to_page" =
  clicked_page inp (session w1 !! "go_to_page").
Proof.
  unfold after_buttons, press, clicked_page.
  destruct (tox_btn inp), (sent_btn inp); cbn [store log session];
    rewrite ?lookup_insert_eq; try done;
    repeat (rewrite lookup_insert_ne by done; rewrite ?lookup_insert_eq);
    done.
Qed.

Section RunFacts.

Variable preprocess_chat : text -> result DataFrame.
Variable to_datetime : list cell -> list cell.
Variable derive : string -> list cell -> result (list cell).
Variable draw : string -> list (list cell) -> option exn.
Variable lower : text -> text.
Variable EMOJI_DATA : text -> bool.

Lemma draw_chart_performs (s : chart_step) (data : list (list cell))
      (w w1 : world) :
  performs chart_effect w w1 ->
  performs chart_effect w (snd (draw_chart draw lower EMOJI_DATA s data w1)).
Proof.
  intros Hw1.
  destruct (draw_chart_cases draw lower EMOJI_DATA s data w1)
    as (evs & -> & Hevs & _).
  apply performs_logs; [|done]. eapply Forall_impl; [exact Hevs|].
  intros ev [-> | [n ->]]; exact I.
Qed.

Lemma run_step_performs (s : chart_step) (df : DataFrame) (w : world) :
  performs chart_effect w (snd (run_step derive draw lower EMOJI_DATA s df w)).
Proof.
  unfold run_step. run_M.
  assert (Hw0 : performs chart_effect w (log (EvSubheader (step_title s)) w)).
  { apply performs_log; [exact I | apply performs_refl]. }
  destruct (step_assign s) as [[new src]|].
  - run_M. destruct (getitem src df) as [col|e]; run_M; [|done].
    destruct (derive new col) as [vals|e]; run_M; [|done].
    unfold set_shared. run_M.
    destruct (setitem new vals df) as [df'|e]; run_M; [|done].
    assert (Hw1 : performs chart_effect w
              (store "chat_df" (PyFrame df')
                     (log (EvSubheader (step_title s)) w))).
    { by apply performs_store. }
    destruct (read_all (step_reads s) df') as [data|e]; run_M; [|done].
    pose proof (draw_chart_performs s data w _ Hw1) as Hd.
    destruct (draw_chart _ _ _ s data _) as [[[]|e] w2]; run_M; exact Hd.
  - run_M. destruct (read_all (step_reads s) df) as [data|e]; run_M; [|done].
    pose proof (draw_chart_performs s data w _ Hw0) as Hd.
    destruct (draw_chart _ _ _ s data _) as [[[]|e] w2]; run_M; exact Hd.
Qed.

Lemma run_steps_performs (ss : list chart_step) (df : DataFrame) (w : world) :
  performs chart_effect w (snd (run_steps derive draw lower EMOJI_DATA ss df w)).
Proof.
  revert df w. induction ss as [|s ss IH]; intros df w.
  - apply performs_refl.
  - cbn [run_steps]. step_bind.
    pose proof (run_step_performs s df w) as Hs.
    destruct (run_step derive draw lower EMOJI_DATA s df w) as [[df'|e] w'];
      cbn [snd] in *.
    + apply (performs_trans _ w w'); [done | apply IH].
    + done.
Qed.

Lemma draw_chart_session (s : chart_step) (data : list (list cell)) (w : world) :
  session (snd (draw_chart draw lower EMOJI_DATA s data w)) = session w.
Proof.
  destruct (draw_chart_cases draw lower EMOJI_DATA s data w) as (evs & -> & _).
  apply logs_session.
Qed.

(** What a chart leaves under [chat_df] is the frame it works on. *)
Lemma run_step_alias (s : chart_step) (df : DataFrame) (w : world) :
  session w !! "chat_df" = Some (PyFrame df) ->
  exists df',
    session (snd (run_step derive draw lower EMOJI_DATA s df w)) !! "chat_df"
    = Some (PyFrame df') /\
    frame_grows (assigned [s]) df df' /\
    match fst (run_step derive draw lower EMOJI_DATA s df w) with
    | Ok r => r = df' /\ forall c, c ∈ assigned [s] -> c ∈ columns df'
    | Err _ => True
    end.
Proof.
  intros Hw. unfold run_step, assigned. cbn [omap list_omap]. run_M.
  destruct (step_assign s) as [[new src]|]; cbn [fmap option_fmap option_map fst].
  - run_M.
    destruct (getitem src df) as [col|e]; run_M;
      [|exists df; split; [done|]; split; [apply frame_grows_refl | done]].
    destruct (derive new col) as [vals|e]; run_M;
      [|exists df; split; [done|]; split; [apply frame_grows_refl | done]].
    unfold set_shared. run_M.
    destruct (setitem new vals df) as [df'|e] eqn:Hset; run_M;
      [|exists df; split; [done|]; split; [apply frame_grows_refl | done]].
    pose proof (setitem_grows new vals df df' Hset) as Hg.
    exists df'.
    destruct (read_all (step_reads s) df') as [data|e]; run_M;
      [|split; [cbn; by rewrite lookup_insert_eq | by split]].
    match goal with |- context [draw_chart _ _ _ s data ?w1] =>
      pose proof (draw_chart_session s data w1) as Hd;
      destruct (draw_chart draw lower EMOJI_DATA s data w1) as [[[]|e] w2]
    end; run_M; cbn [fst snd] in *; rewrite Hd;
      (split; [cbn; by rewrite lookup_insert_eq|]); split; try done.
    split; [done|]. intros c Hc. apply list_elem_of_singleton in Hc as ->.
    apply (proj1 (setitem_columns new vals df df' Hset)).
  - run_M. exists df.
    destruct (read_all (step_reads s) df) as [data|e]; run_M;
      [|split; [done|]; split; [apply frame_grows_refl | done]].
    match goal with |- context [draw_chart _ _ _ s data ?w1] =>
      pose proof (draw_chart_session s data w1) as Hd;
      destruct (draw_chart draw lower EMOJI_DATA s data w1) as [[[]|e] w2]
    end; run_M; cbn [fst snd] in *; rewrite Hd;
      (split; [done|]); (split; [apply frame_grows_refl|]); try done.
    split; [done|]. intros c Hc. by apply elem_of_nil in Hc.
Qed.

Lemma assigned_cons (s : chart_step) (ss : list chart_step) :
  assigned (s :: ss) = assigned [s] ++ assigned ss.
Proof. unfold assigned. cbn. by destruct (step_assign s) as [[new src]|]. Qed.

Lemma run_steps_alias (ss : list chart_step) (df : DataFrame) (w : world) :
  session w !! "chat_df" = Some (PyFrame df) ->
  exists df',
    session (snd (run_steps derive draw lower EMOJI_DATA ss df w)) !! "chat_df"
    = Some (PyFrame df') /\
    frame_grows (assigned ss) df df' /\
    match fst (run_steps derive draw lower EMOJI_DATA ss df w) with
    | Ok r => r = df' /\ forall c, c ∈ assigned ss -> c ∈ columns df'
    | Err _ => True
    end.
Proof.
  revert df w. induction ss as [|s ss IH]; intros df w Hw.
  - exists df. split; [done|]. split; [apply frame_grows_refl|].
    split; [done|]. intros c Hc. by apply elem_of_nil in Hc.
  - cbn [run_steps]. step_bind. rewrite assigned_cons.
    destruct (run_step_alias s df w Hw) as (df1 & Hs1 & Hg1 & Hr1).
    destruct (run_step derive draw lower EMOJI_DATA s df w) as [[r|e] w1];
      cbn [fst snd] in *.
    + destruct Hr1 as [-> Hc1].
      destruct (IH df1 w1 Hs1) as (df2 & Hs2 & Hg2 & Hr2).
      exists df2. split; [done|].
      split; [by apply (frame_grows_trans _ _ df df1 df2)|].
      destruct (fst (run_steps derive draw lower EMOJI_DATA ss df1 w1)); [|done].
      destruct Hr2 as [-> Hc2]. split; [done|].
      intros c [Hc | Hc]%elem_of_app; [|by apply Hc2].
      destruct Hg2 as (_ & Hcols & _). by apply Hcols, Hc1.
    + exists df1. split; [done|]. split; [|done].
      apply (frame_grows_trans _ _ df df1 df1); [exact Hg1|].
      apply frame_grows_refl.
Qed.

(** The world the loading leaves: the parser call if the upload was
    text, and the stored frame if the loading came through. *)
Lemma load_chat_world (raw : list byte) (w : world) :
  snd (load_chat preprocess_chat to_datetime raw w) =
  match fst (load_chat preprocess_chat to_datetime raw w) with
  | Ok df => store "chat_df" (PyFrame df) (logs (parse_event raw) w)
  | Err _ => logs (parse_event raw) w
  end.
Proof.
  unfold load_chat, parse_event.
  destruct (utf8_decode raw) as [t|]; run_M; [|reflexivity].
  destruct (preprocess_chat t) as [df|e]; run_M; [|reflexivity].
  destruct (getitem "date" df) as [dates|e]; run_M; [|reflexivity].
  destruct (setitem "date" (to_datetime dates) df) as [df1|e]; run_M;
    [|reflexivity].
  destruct (dropna "date" df1) as [df2|e]; run_M; reflexivity.
Qed.

End RunFacts.

Lemma basic_statistics_performs (P : effect -> Prop) (df : DataFrame) (w : world) :
  (forall s, P (Logged (EvSubheader s))) ->
  (forall d, P (Logged (EvDataframe d))) ->
  (forall l n, P (Logged (EvMetric l n))) ->
  performs P w (snd (basic_statistics df w)).
Proof.
  intros Hs Hd Hm. rewrite basic_statistics_cases. cbn zeta.
  assert (Hshown : performs P w
            (logs [EvSubheader "Chat Preview"; EvDataframe (head 20 df);
                   EvSubheader "Basic Statistics"] w)).
  { apply performs_logs; [|apply performs_refl]. repeat constructor; auto. }
  case_decide; [|done]. destruct (total_words_of _); [|done]. cbn [snd].
  apply performs_logs; [|done]. repeat constructor; auto.
Qed.

Lemma after_buttons_performs (inp : inputs) (w w1 : world) :
  performs (analysis_effect inp) w w1 ->
  performs (analysis_effect inp) w (after_buttons inp w1).
Proof.
  intros Hw1. unfold after_buttons, press.
  destruct (tox_btn inp) eqn:Ht, (sent_btn inp) eqn:Hs;
    repeat first
      [ apply performs_store;
        [cbn; rewrite ?Ht, ?Hs; right; by intuition|]
      | apply performs_log; [exact I|] ];
    exact Hw1.
Qed.

Lemma chart_effect_analysis (inp : inputs) (a : effect) :
  chart_effect a -> analysis_effect inp a.
Proof.
  destruct a as [[]|k []]; cbn; try done.
  intros ->. left. split; [done|]. by eexists.
Qed.

Lemma analysis_performs dv dr lo em (inp : inputs) (df : DataFrame) (w : world) :
  performs (analysis_effect inp) w (snd (analysis dv dr lo em inp df w)).
Proof.
  rewrite analysis_unfold.
  pose proof (basic_statistics_performs (analysis_effect inp) df w
                (fun _ => I) (fun _ => I) (fun _ _ => I)) as Hst.
  destruct (basic_statistics df w) as [[[]|e] w1]; cbn [snd] in *; [|done].
  pose proof (after_buttons_performs inp w w1 Hst) as Hb.
  pose proof (run_steps_performs dv dr lo em analysis_steps df (after_buttons inp w1))
    as Hsteps.
  apply (performs_impl _ _ _ _ (chart_effect_analysis inp)) in Hsteps.
  destruct (run_steps dv dr lo em analysis_steps df (after_buttons inp w1))
    as [[r|e] w3]; cbn [snd] in *;
    by apply (performs_trans _ w (after_buttons inp w1) w3).
Qed.

Lemma try_body_performs parser td dv dr lo em (inp : inputs) (raw : list byte)
      (w : world) :
  performs (try_effect inp) w (snd (try_body parser td dv dr lo em inp raw w)) /\
  exists body,
    trace (snd (try_body parser td dv dr lo em inp raw w))
    = trace w ++ parse_event raw ++ body /\
    Forall (fun ev => analysis_effect inp (Logged ev)) body.
Proof.
  unfold try_body. step_bind.
  pose proof (load_chat_world parser td raw w) as Hload.
  assert (Hparse : performs (try_effect inp) w (logs (parse_event raw) w)).
  { apply performs_logs; [|apply performs_refl]. unfold parse_event.
    destruct (utf8_decode raw); repeat constructor. }
  destruct (load_chat parser td raw w) as [[df|e] w1]; cbn [fst snd] in *.
  - subst w1.
    set (w1 := store "chat_df" (PyFrame df) (logs (parse_event raw) w)).
    pose proof (analysis_performs dv dr lo em inp df w1) as Ha.
    split.
    + apply (performs_trans _ w w1).
      * apply performs_store; [|done]. cbn. left. split; [done|]. by eexists.
      * eapply performs_impl; [|exact Ha]. intros [[]|]; done.
    + apply performs_trace in Ha as [body [Hbody Hall]].
      exists body. split; [|done]. rewrite Hbody. unfold w1.
      cbn [store trace]. by rewrite logs_trace, <- app_assoc.
  - subst w1. split; [done|]. exists []. split; [|constructor].
    by rewrite logs_trace, app_nil_r.
Qed.

(** X8. A run by a logged-in admin with an upload shows, in this order:
    the title and the uploader; the call of the parser, once, if and
    only if the upload decodes; headings, the preview, the four
    statistics, the buttons, charts and the emoji total; one error
    message if and only if the [try] block raised, carrying the
    exception; and the page switch if the run leaves. Nothing else, and
    no second call of the parser. *)
Theorem run_trace_shape parser td dv dr lo em sp (inp : inputs)
        (raw : list byte) (w : world) :
  admin_logged_in w = Ok true ->
  uploaded_file inp = Some raw ->
  let run := whatsapp_chat_analyzer parser td dv dr lo em sp inp w in
  exists body,
    trace (snd run) =
    trace w
    ++ [EvTitle "WhatsApp Chat Analyzer";
        EvFileUploader "Upload your WhatsApp chat file (.txt)"]
    ++ parse_event raw ++ body
    ++ match fst (try_body parser td dv dr lo em inp raw (page_shown w)) with
       | Ok _ => []
       | Err e => [EvError e]
       end
    ++ match fst run with
       | Switched p => [EvSwitchPage p]
       | _ => []
       end /\
    Forall (fun ev => analysis_effect inp (Logged ev) /\ page_number ev) body.
Proof.
  intros Hflag Hup run. unfold run, whatsapp_chat_analyzer.
  unfold admin_logged_in in Hflag. rewrite Hflag, Hup. cbn zeta.
  fold (page_shown w). rewrite redirect_trace. unfold guarded.
  destruct (try_body_performs parser td dv dr lo em inp raw (page_shown w))
    as [_ [body [Hbody Hall]]].
  destruct (try_body_numbers parser td dv dr lo em inp raw (page_shown w))
    as [shown [Hshown Hnum]].
  assert (Hb : Forall page_number body).
  { rewrite Hshown in Hbody. apply app_inv_head in Hbody. subst shown.
    by apply Forall_app in Hnum as [_ Hnum]. }
  exists body. split.
  - destruct (try_body parser td dv dr lo em inp raw (page_shown w))
      as [[[]|e] w1]; cbn [fst snd log trace] in *; rewrite Hbody;
      cbn [page_shown log trace]; rewrite <- !app_assoc; reflexivity.
  - apply Forall_forall. intros ev Hev. rewrite Forall_forall in Hall, Hb.
    split; auto.
Qed.

Lemma run_trace_shape_witness :
  let run := whatsapp_chat_analyzer (fun _ => Ok two_rows) coerce_times
               derive_same draw_fine lower_plain grinning_only page_not_found
               (upload "hi") logged_in in
  exists body,
    trace (snd run) =
    trace logged_in
    ++ [EvTitle "WhatsApp Chat Analyzer";
        EvFileUploader "Upload your WhatsApp chat file (.txt)"]
    ++ parse_event (bytes_of "hi") ++ body
    ++ match fst (try_body (fun _ => Ok two_rows) coerce_times derive_same
                           draw_fine lower_plain grinning_only (upload "hi")
                           (bytes_of "hi") (page_shown logged_in)) with
       | Ok _ => []
       | Err e => [EvError e]
       end
    ++ match fst run with
       | Switched p => [EvSwitchPage p]
       | _ => []
       end /\
    Forall (fun ev => analysis_effect (upload "hi") (Logged ev) /\
                      page_number ev) body.
Proof.
  apply (run_trace_shape (fun _ => Ok two_rows) coerce_times derive_same
           draw_fine lower_plain grinning_only page_not_found (upload "hi")
           (bytes_of "hi") logged_in).
  - reflexivity.
  - reflexivity.
Defined.

Lemma guarded_session parser td dv dr lo em (inp : inputs) (raw : list byte)
      (w : world) :
  session (guarded parser td dv dr lo em inp raw w) =
  session (snd (try_body parser td dv dr lo em inp raw w)).
Proof.
  unfold guarded.
  by destruct (try_body parser td dv dr lo em inp raw w) as [[[]|e] w1].
Qed.

(** X9. The statements of the page write the session under [chat_df],
    under [go_to_page] and under the keys of its two buttons,
    [sent_btn] and [tox_btn], and nowhere else: every other entry is
    after the run what it was before. In particular the page never
    changes the login flag it tests. *)
Theorem run_touches_four_keys parser td dv dr lo em sp (inp : inputs)
        (w : world) (k : string) :
  let w' := snd (whatsapp_chat_analyzer parser td dv dr lo em sp inp w) in
  (k ∈ ["chat_df"; "go_to_page"; "sent_btn"; "tox_btn"]%string \/
   session w' !! k = session w !! k) /\
  admin_logged_in w' = admin_logged_in w.
Proof.
  cbn zeta.
  assert (Hkeep : forall key,
            key ∉ ["chat_df"; "go_to_page"; "sent_btn"; "tox_btn"]%string ->
            session (snd (whatsapp_chat_analyzer parser td dv dr lo em sp inp w))
              !! key
            = session w !! key).
  { intros key Hkey. unfold whatsapp_chat_analyzer.
    destruct (truthy _) as [[|]|e]; [|done|done]. cbn zeta.
    rewrite redirect_session.
    destruct (uploaded_file inp) as [raw|]; [|done].
    rewrite guarded_session. fold (page_shown w).
    destruct (try_body_performs parser td dv dr lo em inp raw (page_shown w))
      as [Hp _].
    rewrite (performs_keeps _ key _ _ Hp); [done|].
    intros v Hv. exfalso. apply Hkey. cbn in Hv.
    destruct Hv as [[-> _] | [[-> _] | [[-> _] | [-> _]]]];
      repeat first [ by left | right ]. }
  split.
  - destruct (decide (k ∈ ["chat_df"; "go_to_page"; "sent_btn"; "tox_btn"]%string));
      [by left | right; by apply Hkeep].
  - unfold admin_logged_in, session_get. rewrite Hkeep; [done|].
    intros Hin. repeat (apply elem_of_cons in Hin as [Hin | Hin]; [done|]).
    by apply elem_of_nil in Hin.
Qed.

(** X10. When the loading fails (the upload is not UTF-8, the parser
    raises, its frame has no [date] column, or the coerced dates do not
    fit the frame), the run shows that one error and nothing of the
    analysis, and the session is left as it was: a frame stored by an
    earlier upload stays. *)
Theorem failed_load_changes_nothing parser td dv dr lo em (inp : inputs)
        (raw : list byte) (w : world) (e : exn) :
  fst (load_chat parser td raw w) = Err e ->
  guarded parser td dv dr lo em inp raw w =
    log (EvError e) (logs (parse_event raw) w) /\
  session (guarded parser td dv dr lo em inp raw w) = session w /\
  ((utf8_decode raw = None /\ e = UnicodeDecodeError) \/
   exists txt, utf8_decode raw = Some txt /\
     (parser txt = Err e \/
      exists df, parser txt = Ok df /\
        ((("date" ∉ columns df) /\ e = KeyError "date") \/
         ("date" ∈ columns df /\ e = ValueError)))).
Proof.
  intros Hload.
  assert (Hg : guarded parser td dv dr lo em inp raw w =
               log (EvError e) (logs (parse_event raw) w)).
  { unfold guarded, try_body. step_bind.
    pose proof (load_chat_world parser td raw w) as Hw.
    destruct (load_chat parser td raw w) as [[df|e'] w1]; cbn [fst snd] in *;
      [done|]. injection Hload as ->. by subst w1. }
  split; [exact Hg|]. split; [rewrite Hg; cbn [log session]; apply logs_session|].
  destruct (utf8_decode raw) as [txt|] eqn:Hd.
  - right. exists txt. split; [done|].
    destruct (parser txt) as [df|e'] eqn:Hp.
    + right. exists df. split; [done|].
      rewrite (load_chat_cases parser td raw w txt df Hd Hp) in Hload.
      destruct (decide ("date" ∈ columns df)) as [Hin | Hnin].
      * right. split; [done|]. case_decide; [done|]. by injection Hload as <-.
      * left. split; [done|]. by injection Hload as <-.
    + left. unfold load_chat in Hload. rewrite Hd in Hload.
      revert Hload. run_M. rewrite Hp. run_M. by intros [= ->].
  - left. split; [done|]. unfold load_chat in Hload. rewrite Hd in Hload.
    revert Hload. run_M. by intros [= ->].
Qed.

Lemma failed_load_changes_nothing_witness :
  guarded (fun _ => Ok two_rows) coerce_times derive_same draw_fine
    lower_plain grinning_only
          (mkInputs (Some [xc0; x80]) false false) [xc0; x80] logged_in =
    log (EvError UnicodeDecodeError) (logs (parse_event [xc0; x80]) logged_in)
  /\
  session (guarded (fun _ => Ok two_rows) coerce_times derive_same draw_fine
    lower_plain grinning_only
             (mkInputs (Some [xc0; x80]) false false) [xc0; x80] logged_in)
  = session logged_in /\
  ((utf8_decode [xc0; x80] = None /\ UnicodeDecodeError = UnicodeDecodeError) \/
   exists txt, utf8_decode [xc0; x80] = Some txt /\
     ((fun _ : text => Ok two_rows) txt = Err UnicodeDecodeError \/
      exists df, (fun _ : text => Ok two_rows) txt = Ok df /\
        ((("date" ∉ columns df) /\ UnicodeDecodeError = KeyError "date") \/
         ("date" ∈ columns df /\ UnicodeDecodeError = ValueError)))).
Proof.
  apply (failed_load_changes_nothing (fun _ => Ok two_rows) coerce_times
           derive_same draw_fine
             lower_plain grinning_only (mkInputs (Some [xc0; x80]) false false)
           [xc0; x80] logged_in UnicodeDecodeError).
  reflexivity.
Defined.

(** X11. The page never clears [go_to_page]. In a run by a logged-in
    admin in which no button is clicked, the entry is left as it was
    and alone decides how the run ends, whatever is uploaded and
    whatever fails inside the [try] block: once it says [sentiment] (or
    [toxicity]), every such run ends in the call of [st.switch_page]
    for that page again, leaving for the page or, when the call raises,
    with its exception escaping the function; and a frame stored under
    [go_to_page] makes every such run end with a [ValueError]. *)
Theorem exit_without_click parser td dv dr lo em sp (inp : inputs) (w : world) :
  admin_logged_in w = Ok true ->
  sent_btn inp = false ->
  tox_btn inp = false ->
  let run := whatsapp_chat_analyzer parser td dv dr lo em sp inp w in
  session (snd run) !! "go_to_page" = session w !! "go_to_page" /\
  fst run = destination sp (session w !! "go_to_page") /\
  (session w !! "go_to_page" = Some (PyStr (py "sentiment")) ->
   fst run = switched sp "pages/2_Sentiment_Analysis") /\
  (session w !! "go_to_page" = Some (PyStr (py "toxicity")) ->
   fst run = switched sp "pages/3_Toxicity_Analysis") /\
  (forall df, session w !! "go_to_page" = Some (PyFrame df) ->
              fst run = Escaped ValueError).
Proof.
  intros Hflag Hsent Htox run.
  assert (Hgo : session (snd run) !! "go_to_page" = session w !! "go_to_page").
  { unfold run, whatsapp_chat_analyzer. unfold admin_logged_in in Hflag.
    rewrite Hflag. cbn zeta. rewrite redirect_session.
    destruct (uploaded_file inp) as [raw|]; [|done].
    rewrite guarded_session. fold (page_shown w).
    destruct (try_body_performs parser td dv dr lo em inp raw (page_shown w))
      as [Hp _].
    rewrite (performs_keeps _ "go_to_page" _ _ Hp); [done|].
    intros v Hv. cbn in Hv. rewrite Hsent, Htox in Hv.
    destruct Hv as [[? _] | [[_ [[? _] | [? _]]] | [[? _] | [? _]]]]; done. }
  assert (Hexit : fst run = destination sp (session w !! "go_to_page")).
  { rewrite <- Hgo. unfold run, whatsapp_chat_analyzer.
    unfold admin_logged_in in Hflag. rewrite Hflag. cbn zeta.
    by rewrite redirect_destination, redirect_session. }
  split; [done|]. split; [done|].
  split; [|split]; [intros Hs | intros Hs | intros df Hs];
    rewrite Hexit, Hs; reflexivity.
Qed.

Lemma exit_without_click_witness :
  let w := store "go_to_page" (PyStr (py "sentiment")) logged_in in
  let run := whatsapp_chat_analyzer (fun _ => Ok two_rows) coerce_times
               derive_same draw_fine lower_plain grinning_only page_not_found
               (upload "hi") w in
  session (snd run) !! "go_to_page" = session w !! "go_to_page" /\
  fst run = destination page_not_found (session w !! "go_to_page") /\
  (session w !! "go_to_page" = Some (PyStr (py "sentiment")) ->
   fst run = switched page_not_found "pages/2_Sentiment_Analysis") /\
  (session w !! "go_to_page" = Some (PyStr (py "toxicity")) ->
   fst run = switched page_not_found "pages/3_Toxicity_Analysis") /\
  (forall df, session w !! "go_to_page" = Some (PyFrame df) ->
              fst run = Escaped ValueError).
Proof.
  apply (exit_without_click (fun _ => Ok two_rows) coerce_times derive_same
           draw_fine lower_plain grinning_only page_not_found (upload "hi")
           (store "go_to_page" (PyStr (py "sentiment")) logged_in)).
  - reflexivity.
  - reflexivity.
  - reflexivity.
Defined.

Lemma basic_statistics_session (df : DataFrame) (w : world) :
  session (snd (basic_statistics df w)) = session w.
Proof.
  rewrite basic_statistics_cases. cbn zeta.
  case_decide; [|apply logs_session].
  destruct (total_words_of _); cbn [snd]; by rewrite ?logs_session.
Qed.

Lemma after_buttons_session (inp : inputs) (w1 : world) (key : string) :
  key <> "go_to_page"%string ->
  key <> "sent_btn"%string -> key <> "tox_btn"%string ->
  session (after_buttons inp w1) !! key = session w1 !! key.
Proof.
  intros Hne Hs Ht. unfold after_buttons. by rewrite !press_session.
Qed.

(** X12. When the run reaches the buttons (the loading came through and
    the statistics were shown), the clicks decide how it ends, whatever
    the charts do afterwards: a click on the toxicity button ends the
    run in the call of [st.switch_page] for the toxicity page, else a
    click on the sentiment button in the call for the sentiment page,
    else the entry of an earlier run decides. The call leaves for the
    page or, when it raises, its exception escapes the function. *)
Theorem clicks_decide_exit parser td dv dr lo em sp (inp : inputs)
        (raw : list byte) (w : world) (df : DataFrame) :
  admin_logged_in w = Ok true ->
  uploaded_file inp = Some raw ->
  fst (load_chat parser td raw (page_shown w)) = Ok df ->
  fst (basic_statistics df w) = Ok tt ->
  let run := whatsapp_chat_analyzer parser td dv dr lo em sp inp w in
  session (snd run) !! "go_to_page" =
    clicked_page inp (session w !! "go_to_page") /\
  fst run = destination sp (clicked_page inp (session w !! "go_to_page")) /\
  (tox_btn inp = true -> fst run = switched sp "pages/3_Toxicity_Analysis") /\
  (tox_btn inp = false -> sent_btn inp = true ->
   fst run = switched sp "pages/2_Sentiment_Analysis").
Proof.
  intros Hflag Hup Hload Hstat run.
  assert (Hgo : session (snd run) !! "go_to_page" =
                clicked_page inp (session w !! "go_to_page")).
  { unfold run, whatsapp_chat_analyzer. unfold admin_logged_in in Hflag.
    rewrite Hflag, Hup. cbn zeta. rewrite redirect_session, guarded_session.
    fold (page_shown w). unfold try_body. step_bind.
    pose proof (load_chat_world parser td raw (page_shown w)) as Hw1.
    destruct (load_chat parser td raw (page_shown w)) as [[df1|e] w1];
      cbn [fst snd] in *; [|done]. injection Hload as ->.
    rewrite analysis_unfold.
    assert (Hst1 : fst (basic_statistics df w1) = Ok tt).
    { revert Hstat. rewrite !basic_statistics_cases. cbn zeta.
      case_decide; [|done]. by destruct (total_words_of _). }
    pose proof (basic_statistics_session df w1) as Hs2.
    destruct (basic_statistics df w1) as [[[]|e] w2]; cbn [fst snd] in *;
      [|done].
    pose proof (run_steps_performs dv dr lo em analysis_steps df
                  (after_buttons inp w2)) as Hp.
    assert (Hkeep : session (snd (run_steps dv dr lo em analysis_steps df
                                    (after_buttons inp w2))) !! "go_to_page"
                    = session (after_buttons inp w2) !! "go_to_page").
    { apply (performs_keeps _ _ _ _ Hp). intros [] Hv; done. }
    rewrite after_buttons_page, Hs2, Hw1 in Hkeep.
    cbn [store session] in Hkeep.
    rewrite lookup_insert_ne, logs_session in Hkeep by done.
    destruct (run_steps dv dr lo em analysis_steps df (after_buttons inp w2))
      as [[r|e] w3]; exact Hkeep. }
  assert (Hexit : fst run
                  = destination sp (clicked_page inp (session w !! "go_to_page"))).
  { rewrite <- Hgo. unfold run, whatsapp_chat_analyzer.
    unfold admin_logged_in in Hflag. rewrite Hflag. cbn zeta.
    by rewrite redirect_destination, redirect_session. }
  split; [done|]. split; [done|]. split.
  - intros Ht. rewrite Hexit. unfold clicked_page. rewrite Ht. reflexivity.
  - intros Ht Hs. rewrite Hexit. unfold clicked_page. rewrite Ht, Hs.
    reflexivity.
Qed.

Lemma clicks_decide_exit_witness :
  let inp := mkInputs (Some (bytes_of "hi")) true false in
  let run := whatsapp_chat_analyzer (fun _ => Ok two_rows) coerce_times
               derive_same draw_fine lower_plain grinning_only page_not_found
               inp logged_in in
  session (snd run) !! "go_to_page" =
    clicked_page inp (session logged_in !! "go_to_page") /\
  fst run = destination page_not_found
              (clicked_page inp (session logged_in !! "go_to_page")) /\
  (tox_btn inp = true ->
   fst run = switched page_not_found "pages/3_Toxicity_Analysis") /\
  (tox_btn inp = false -> sent_btn inp = true ->
   fst run = switched page_not_found "pages/2_Sentiment_Analysis").
Proof.
  apply (clicks_decide_exit (fun _ => Ok two_rows) coerce_times derive_same
           draw_fine lower_plain grinning_only page_not_found
           (mkInputs (Some (bytes_of "hi")) true false)
           (bytes_of "hi") logged_in (cleaned coerce_times two_rows)).
  - reflexivity.
  - reflexivity.
  - vm_compute. reflexivity.
  - vm_compute. reflexivity.
Defined.

(** Once a frame is loaded, the session entry [chat_df] follows it
    through the rest of the [try] block. *)
Lemma stored_frame_follows parser td dv dr lo em (inp : inputs) (raw : list byte)
      (w : world) (df : DataFrame) :
  fst (load_chat parser td raw w) = Ok df ->
  exists df',
    session (guarded parser td dv dr lo em inp raw w) !! "chat_df"
    = Some (PyFrame df') /\
    frame_grows (assigned analysis_steps) df df' /\
    (fst (try_body parser td dv dr lo em inp raw w) = Ok tt ->
     forall c, c ∈ assigned analysis_steps -> c ∈ columns df').
Proof.
  intros Hload. rewrite guarded_session. unfold try_body. step_bind.
  pose proof (load_chat_world parser td raw w) as Hw1.
  destruct (load_chat parser td raw w) as [[df1|e] w1]; cbn [fst snd] in *;
    [|done]. injection Hload as ->.
  assert (Hs1 : session w1 !! "chat_df" = Some (PyFrame df)).
  { rewrite Hw1. cbn [store session]. apply lookup_insert_eq. }
  rewrite analysis_unfold.
  pose proof (basic_statistics_session df w1) as Hs2.
  destruct (basic_statistics df w1) as [[[]|e] w2]; cbn [fst snd] in *.
  - assert (Hs3 : session (after_buttons inp w2) !! "chat_df"
                  = Some (PyFrame df)).
    { rewrite after_buttons_session by done. by rewrite Hs2. }
    destruct (run_steps_alias dv dr lo em analysis_steps df (after_buttons inp w2) Hs3)
      as (df' & Hs' & Hg & Hr).
    exists df'.
    destruct (run_steps dv dr lo em analysis_steps df (after_buttons inp w2))
      as [[r|e] w3]; cbn [fst snd] in *.
    + split; [done|]. split; [done|]. intros _. by destruct Hr.
    + split; [done|]. split; [done|]. done.
  - exists df. split; [by rewrite Hs2|].
    split; [apply frame_grows_refl | done].
Qed.

(** X13. Once the loading came through, the frame is in the session for
    the other pages whatever happens next (a missing [message] column,
    a cell that is not a string, a chart that fails): the entry
    [chat_df] holds a frame with the rows that were kept, with every
    column of the loaded frame, and with the loaded cells in all
    columns but [day_name], [hour], [month], [msg_length] and [day],
    which the charts fill. *)
Theorem stored_frame_survives parser td dv dr lo em (inp : inputs) (raw : list byte)
        (w : world) (df : DataFrame) :
  fst (load_chat parser td raw w) = Ok df ->
  exists df',
    session (guarded parser td dv dr lo em inp raw w) !! "chat_df"
    = Some (PyFrame df') /\
    nrows df' = nrows df /\
    (forall c, c ∈ columns df -> c ∈ columns df') /\
    (forall c, c ∉ ["day_name"; "hour"; "month"; "msg_length"; "day"]%string ->
               at_col c <$> rows df' = at_col c <$> rows df).
Proof.
  intros Hload.
  destruct (stored_frame_follows parser td dv dr lo em inp raw w df Hload)
    as (df' & Hs & Hg & _).
  exists df'. split; [done|]. exact Hg.
Qed.

Lemma stored_frame_survives_witness :
  exists df',
    session (guarded (fun _ => Ok two_rows) coerce_times derive_same draw_fine
      lower_plain grinning_only
               (upload "hi") (bytes_of "hi") logged_in) !! "chat_df"
    = Some (PyFrame df') /\
    nrows df' = nrows (cleaned coerce_times two_rows) /\
    (forall c, c ∈ columns (cleaned coerce_times two_rows) -> c ∈ columns df') /\
    (forall c, c ∉ ["day_name"; "hour"; "month"; "msg_length"; "day"]%string ->
               at_col c <$> rows df'
               = at_col c <$> rows (cleaned coerce_times two_rows)).
Proof.
  apply (stored_frame_survives (fun _ => Ok two_rows) coerce_times derive_same
           draw_fine lower_plain grinning_only (upload "hi") (bytes_of "hi") logged_in
           (cleaned coerce_times two_rows)).
  vm_compute. reflexivity.
Defined.

(** X14. The name [df] and the session entry [chat_df] are one frame:
    when the [try] block ends without an exception, the frame the other
    pages find in the session has the five columns the charts added,
    [day_name], [hour], [month], [msg_length] and [day]. *)
Theorem charts_extend_stored_frame parser td dv dr lo em (inp : inputs)
        (raw : list byte) (w : world) :
  fst (try_body parser td dv dr lo em inp raw w) = Ok tt ->
  exists df',
    session (guarded parser td dv dr lo em inp raw w) !! "chat_df"
    = Some (PyFrame df') /\
    Forall (fun c => c ∈ columns df')
           ["day_name"; "hour"; "month"; "msg_length"; "day"]%string.
Proof.
  intros Htry.
  destruct (fst (load_chat parser td raw w)) as [df|e] eqn:Hload.
  - destruct (stored_frame_follows parser td dv dr lo em inp raw w df Hload)
      as (df' & Hs & _ & Hcols).
    exists df'. split; [done|]. apply Forall_forall. intros c Hc.
    by apply Hcols.
  - exfalso. revert Htry. unfold try_body. step_bind.
    destruct (load_chat parser td raw w) as [[df|e'] w1]; cbn [fst] in *; done.
Qed.

Lemma charts_extend_stored_frame_witness :
  exists df',
    session (guarded (fun _ => Ok two_rows) coerce_times derive_same draw_fine
      lower_plain grinning_only
               (upload "hi") (bytes_of "hi") logged_in) !! "chat_df"
    = Some (PyFrame df') /\
    Forall (fun c => c ∈ columns df')
           ["day_name"; "hour"; "month"; "msg_length"; "day"]%string.
Proof.
  apply (charts_extend_stored_frame (fun _ => Ok two_rows) coerce_times
           derive_same draw_fine
             lower_plain grinning_only (upload "hi") (bytes_of "hi") logged_in).
  vm_compute. reflexivity.
Defined.

(** X15. No exception of the parser, of pandas or of a plotting library
    leaves the page: what is raised inside the [try] block is caught
    there. An exception that escapes a run comes from one of the three
    places outside the block: the test of the login flag, before
    anything is shown or stored; the comparison of [go_to_page], when a
    frame is stored there; or the call of [st.switch_page] for one of
    the two pages. A run leaves for a page only when that call does not
    raise. *)
Theorem exceptions_stay_inside parser td dv dr lo em sp (inp : inputs)
        (w : world) :
  match whatsapp_chat_analyzer parser td dv dr lo em sp inp w with
  | (Escaped e, w') =>
      (admin_logged_in w = Err e /\ w' = w) \/
      (admin_logged_in w = Ok true /\
       ((e = ValueError /\
         exists df, session w' !! "go_to_page" = Some (PyFrame df)) \/
        (session w' !! "go_to_page" = Some (PyStr (py "sentiment")) /\
         sp "pages/2_Sentiment_Analysis" = Some e) \/
        (session w' !! "go_to_page" = Some (PyStr (py "toxicity")) /\
         sp "pages/3_Toxicity_Analysis" = Some e)))
  | (Returned, _) => exists b, admin_logged_in w = Ok b
  | (Switched p, _) => admin_logged_in w = Ok true /\ sp p = None
  end.
Proof.
  unfold whatsapp_chat_analyzer, admin_logged_in.
  destruct (truthy _) as [[|]|e]; [|by exists false|by left].
  cbn zeta.
  match goal with |- context [redirect sp ?x] => generalize x end.
  intros w1. unfold redirect, leave, goes_to.
  destruct (session w1 !! "go_to_page") as [[| |z|s|df]|] eqn:Hgo;
    try (by exists true).
  - destruct (decide (s = py "sentiment")) as [-> | Hne].
    + rewrite bool_decide_true by done.
      destruct (sp "pages/2_Sentiment_Analysis") as [e|] eqn:Hsp.
      * right. split; [done|]. right. left. by rewrite Hgo.
      * done.
    + rewrite bool_decide_false by done.
      destruct (decide (s = py "toxicity")) as [-> | Hne2].
      * rewrite bool_decide_true by done.
        destruct (sp "pages/3_Toxicity_Analysis") as [e|] eqn:Hsp.
        -- right. split; [done|]. right. right. by rewrite Hgo.
        -- done.
      * rewrite bool_decide_false by done. by exists true.
  - right. split; [done|]. left. split; [done|]. exists df. by rewrite Hgo.
Qed.

Lemma kept_sublist (c : string) (rs : list (gmap string cell)) (vs : list cell) :
  c <> "date"%string ->
  sublist (at_col c <$>
             List.filter (fun r => negb (isna (at_col "date" r)))
                (zip_with (fun r v => <["date" := v]> r) rs vs))
          (at_col c <$> rs).
Proof.
  intros Hc. revert vs. induction rs as [|r rs IH]; intros vs.
  - constructor.
  - destruct vs as [|v vs]; [apply sublist_nil_l|].
    cbn [zip_with List.filter]. rewrite at_col_insert.
    destruct (isna v); cbn [negb fmap list_fmap].
    + apply sublist_cons, IH.
    + rewrite at_col_insert_ne by done. apply sublist_skip, IH.
Qed.

Lemma kept_count (rs : list (gmap string cell)) (vs : list cell) :
  length vs = length rs ->
  (length (List.filter (fun r => negb (isna (at_col "date" r)))
             (zip_with (fun r v => <["date" := v]> r) rs vs))
   + length (List.filter isna vs) = length rs)%nat.
Proof.
  revert vs. induction rs as [|r rs IH]; intros vs Hlen.
  - by destruct vs.
  - destruct vs as [|v vs]; [done|]. cbn [length] in Hlen.
    cbn [zip_with List.filter]. rewrite at_col_insert.
    specialize (IH vs ltac:(lia)).
    destruct (isna v); cbn [negb length]; lia.
Qed.

(** X16. Coercing the dates and dropping the rows never reorders,
    repeats or edits messages: in every column but [date] the cells of
    the loaded frame are a subsequence of the cells the parser
    returned. The rows that are gone are exactly as many as the coerced
    dates that are missing, so Messages is the parser's row count less
    that number. *)
Theorem kept_rows_in_order parser (td : list cell -> list cell)
        (raw : list byte) (w : world) (txt : text) (df0 df : DataFrame) :
  utf8_decode raw = Some txt ->
  parser txt = Ok df0 ->
  fst (load_chat parser td raw w) = Ok df ->
  (forall c, c <> "date"%string ->
     sublist (at_col c <$> rows df) (at_col c <$> rows df0)) /\
  (nrows df + length (List.filter isna (td (at_col "date" <$> rows df0)))
   = nrows df0)%nat.
Proof.
  intros Hraw Hparse Hload.
  rewrite (load_chat_cases parser td raw w txt df0 Hraw Hparse) in Hload.
  case_decide as Hdate; [|done]. case_decide as Hlen; [|done].
  injection Hload as <-. split.
  - intros c Hc. apply kept_sublist, Hc.
  - apply kept_count, Hlen.
Qed.

Lemma kept_rows_in_order_witness :
  (forall c, c <> "date"%string ->
     sublist (at_col c <$> rows (cleaned coerce_times two_rows))
             (at_col c <$> rows two_rows)) /\
  (nrows (cleaned coerce_times two_rows)
   + length (List.filter isna (coerce_times (at_col "date" <$> rows two_rows)))
   = nrows two_rows)%nat.
Proof.
  apply (kept_rows_in_order (fun _ => Ok two_rows) coerce_times
           (bytes_of "hi") logged_in (py "hi") two_rows
           (cleaned coerce_times two_rows)).
  - reflexivity.
  - reflexivity.
  - vm_compute. reflexivity.
Defined.

(** X18. Two charts are drawn only when there is something to draw. On
    a message column of strings, the heading Most Common Words is
    followed by its chart exactly when a word is left to count, and the
    heading Emoji Usage is followed by the total of the emoji found
    and, exactly when that total is not zero, by its chart. *)
Theorem guarded_charts_need_data dv dr lo em (df : DataFrame) (w : world)
        (col : list cell) (msgs : list text) :
  getitem "message" df = Ok col ->
  strings_of col = Ok msgs ->
  dr "Most Common Words"%string [col] = None ->
  dr "Emoji Usage"%string [col] = None ->
  let words := mkStep "Most Common Words" None ["message"%string] IfWords in
  let emojis := mkStep "Emoji Usage" None ["message"%string] IfEmojis in
  words ∈ analysis_steps /\ emojis ∈ analysis_steps /\
  run_step dv dr lo em words df w =
    (Ok df,
     logs (EvSubheader "Most Common Words" ::
           match common_words lo msgs with
           | [] => []
           | _ :: _ => [EvChart "Most Common Words" [col]]
           end) w) /\
  run_step dv dr lo em emojis df w =
    (Ok df,
     logs ([EvSubheader "Emoji Usage";
            EvWrite "Total Emojis Used: " (length (all_emojis em msgs))] ++
           match emoji_chart em msgs with
           | Some _ => [EvChart "Emoji Usage" [col]]
           | None => []
           end) w).
Proof.
  intros Hcol Hmsgs Hw He words emojis.
  assert (Hread : read_all ["message"%string] df = Ok [col]).
  { cbn [read_all]. by rewrite Hcol. }
  split; [|split; [|split]].
  - unfold analysis_steps. do 6 apply list_elem_of_further.
    apply list_elem_of_here.
  - unfold analysis_steps. do 10 apply list_elem_of_further.
    apply list_elem_of_here.
  - unfold run_step, words.
    cbn [step_title step_assign step_reads step_guard].
    run_M. rewrite Hread. run_M.
    unfold draw_chart, passes. cbn [step_guard step_title].
    change (concat [col]) with (col ++ []).
    rewrite app_nil_r, Hmsgs. run_M. unfold show_chart.
    destruct (common_words lo msgs) as [|x l]; run_M; [reflexivity|].
    rewrite Hw. run_M. reflexivity.
  - unfold run_step, emojis.
    cbn [step_title step_assign step_reads step_guard].
    run_M. rewrite Hread. run_M.
    unfold draw_chart, passes. cbn [step_guard step_title].
    change (concat [col]) with (col ++ []).
    rewrite app_nil_r, Hmsgs. run_M. unfold show_chart, emoji_chart.
    destruct (length (all_emojis em msgs)) as [|n]; run_M; [reflexivity|].
    rewrite He. run_M. reflexivity.
Qed.

Lemma guarded_charts_need_data_witness :
  let df := cleaned coerce_times two_rows in
  let col := [CStr (py "Hello there")] in
  let msgs := [py "Hello there"] in
  let words := mkStep "Most Common Words" None ["message"%string] IfWords in
  let emojis := mkStep "Emoji Usage" None ["message"%string] IfEmojis in
  words ∈ analysis_steps /\ emojis ∈ analysis_steps /\
  run_step derive_same draw_fine lower_plain grinning_only words df logged_in =
    (Ok df,
     logs (EvSubheader "Most Common Words" ::
           match common_words lower_plain msgs with
           | [] => []
           | _ :: _ => [EvChart "Most Common Words" [col]]
           end) logged_in) /\
  run_step derive_same draw_fine lower_plain grinning_only emojis df logged_in =
    (Ok df,
     logs ([EvSubheader "Emoji Usage";
            EvWrite "Total Emojis Used: "
                    (length (all_emojis grinning_only msgs))] ++
           match emoji_chart grinning_only msgs with
           | Some _ => [EvChart "Emoji Usage" [col]]
           | None => []
           end) logged_in).
Proof.
  apply (guarded_charts_need_data derive_same draw_fine lower_plain
           grinning_only (cleaned coerce_times two_rows) logged_in
           [CStr (py "Hello there")] [py "Hello there"]).
  - vm_compute. reflexivity.
  - reflexivity.
  - reflexivity.
  - reflexivity.
Defined.

(** *** Emoji *)

(** What [Counter(ws).most_common(n)] holds, for any words and any [n]. *)
Lemma most_common_spec (n : nat) (ws : list text) :
  let top := most_common n (Counter ws) in
  (length top <= n)%nat /\
  StronglySorted by_count top /\
  NoDup (fst <$> top) /\
  Forall (fun e => snd e = occurrences (fst e) ws /\ fst e ∈ ws) top /\
  (ws <> [] -> (0 < n)%nat -> top <> []).
Proof.
  intros top. unfold most_common in top.
  set (sorted := fold_right insert_by_count [] (Counter ws)) in *.
  destruct (Counter_entries ws) as (Hnd & Hent & Hall).
  assert (Hperm : sorted ≡ₚ Counter ws) by apply sort_by_count_perm.
  assert (Hsorted : StronglySorted by_count sorted)
    by apply sort_by_count_sorted.
  assert (Hsplit : sorted = top ++ drop n sorted)
    by (symmetry; apply take_drop).
  split; [unfold top; rewrite length_take; lia|].
  split; [|split; [|split]].
  - rewrite Hsplit in Hsorted. by apply StronglySorted_app_1_l in Hsorted.
  - assert (Hk : NoDup (fst <$> sorted)) by by rewrite Hperm.
    rewrite Hsplit, fmap_app in Hk. by apply NoDup_app in Hk as [Hk _].
  - apply Forall_forall. intros [w k] He. cbn [fst snd].
    assert (Hin : (w, k) ∈ Counter ws).
    { rewrite <- Hperm, Hsplit. apply elem_of_app. by left. }
    destruct (Hent w k Hin) as [Hk Hpos]. split; [done|].
    apply occurrences_elem. lia.
  - intros Hws Hn Htop. destruct ws as [|x ws]; [done|].
    pose proof (Hall x ltac:(by left)) as Hx. rewrite <- Hperm in Hx.
    unfold top in Htop. destruct sorted as [|y sorted'].
    + by apply elem_of_nil in Hx.
    + destruct n; [lia | done].
Qed.

Lemma extract_emojis_length (data : text -> bool) (s : text) :
  length (extract_emojis data s)
  = length (List.filter (fun c => data [c]) s).
Proof. unfold extract_emojis. apply length_fmap. Qed.

(** X17. Total Emojis Used counts, over all messages alike (links and
    media placeholders included), the characters that are themselves
    keys of the emoji table. The chart is drawn exactly when that count
    is not zero; it then has between one and ten entries, by falling
    count, each a single character that is a key of the table and
    occurs in a message, with the number of its occurrences. *)
Theorem emoji_counts (data : text -> bool) (msgs : list text) :
  length (all_emojis data msgs)
  = length (List.filter (fun c => data [c]) (concat msgs)) /\
  match emoji_chart data msgs with
  | None => all_emojis data msgs = []
  | Some top =>
      top <> [] /\ (length top <= 10)%nat /\
      StronglySorted by_count top /\
      NoDup (fst <$> top) /\
      Forall (fun e => exists c msg,
                fst e = [c] /\ data [c] = true /\ msg ∈ msgs /\ c ∈ msg /\
                snd e = occurrences [c] (all_emojis data msgs)) top
  end.
Proof.
  split.
  - unfold all_emojis. induction msgs as [|m msgs IH]; [done|].
    cbn [flat_map concat]. rewrite length_app, IH, extract_emojis_length.
    by rewrite List.filter_app, length_app.
  - unfold emoji_chart.
    destruct (all_emojis data msgs) as [|e es] eqn:Hes; [done|].
    cbn [length]. rewrite <- Hes.
    destruct (most_common_spec 10 (all_emojis data msgs))
      as (Hlen & Hsorted & Hnd & Hent & Hne).
    split; [apply Hne; [by rewrite Hes | lia]|].
    split; [done|]. split; [done|]. split; [done|].
    eapply Forall_impl; [exact Hent|]. intros [k n] [Hn Hk]. cbn [fst snd] in *.
    unfold all_emojis in Hk. apply list_elem_of_In, in_flat_map in Hk
      as [msg [Hmsg Hk]].
    unfold extract_emojis in Hk. apply list_elem_of_In, list_elem_of_fmap in Hk
      as [c [-> Hc]].
    apply list_elem_of_In, filter_In in Hc as [Hc Hdata].
    exists c, msg. repeat split; try done; by apply list_elem_of_In.
Qed.
